(** * EV charger ETL: station and operator dimensions, charger fact table

    A shallow embedding of [src/transform_data.py], [src/build_table_files.py]
    and [main.py], and the properties of the dimension and fact tables they
    build.

    The program is a chain of polars data-frame calls.  A raw frame is a
    header (the column names that are present) together with its rows; the
    rows are records with one nullable cell per column the program reads.
    The polars operations the program calls are embedded in [Module pl] with
    the behaviour polars documents for the arguments the program passes:

    - [select], [rename], [join] on a column that is absent raise
      [ColumnNotFoundError];
    - [unique(subset=...)] is called with its defaults [keep="any"] and
      [maintain_order=False]: one row is kept for each distinct key, which
      row and in which order is left open by polars.  It is therefore a
      parameter of the development ([pl.Unique]) with exactly that contract,
      and two implementations of it are given;
    - [join(how="left")] keeps every left row, pairs it with every right row
      whose key is equal, and never matches a null key;
    - [sort] puts nulls first, then ascending;
    - [str.strip_chars()] removes leading and trailing white space. *)

From Stdlib Require Import List String Ascii ZArith Bool Lia.
From Stdlib Require Import Permutation Sorted PrimFloat.
Import ListNotations.
Open Scope string_scope.
Open Scope list_scope.
Open Scope Z_scope.

(** ** Errors *)

Inductive exn : Type :=
| FileNotFoundError
| SchemaError
| ColumnNotFoundError (column : string)
| IndexError.

Definition result (A : Type) : Type := (exn + A)%type.

Definition ret {A : Type} (a : A) : result A := inr a.
Definition raise {A : Type} (e : exn) : result A := inl e.
Definition bind {A B : Type} (m : result A) (k : A -> result B) : result B :=
  match m with
  | inl e => inl e
  | inr a => k a
  end.

Notation "x <- m ;; k" := (bind m (fun x => k))
  (at level 61, m at next level, right associativity).

(** ** The polars operations the program uses *)

Module pl.

(** *** Strings: [str.strip_chars()]

    Characters are the code points below 256; the white-space ones among
    them are U+0009..U+000D, U+0020, U+0085 and U+00A0. *)

Definition is_whitespace (c : ascii) : bool :=
  let n := nat_of_ascii c in
  (((9 <=? n) && (n <=? 13)) || (n =? 32) || (n =? 133) || (n =? 160))%nat.

Fixpoint trim_start (l : list ascii) : list ascii :=
  match l with
  | [] => []
  | c :: r => if is_whitespace c then trim_start r else l
  end.

Definition trim_end (l : list ascii) : list ascii :=
  rev (trim_start (rev l)).

Definition strip_chars (s : string) : string :=
  string_of_list_ascii (trim_end (trim_start (list_ascii_of_string s))).

(** *** Cells and columns *)

Definition fill_null {A : Type} (v : A) (cell : option A) : A :=
  match cell with
  | Some a => a
  | None => v
  end.

(** [pl.arange(lo, hi)]: the integers from [lo] up to [hi - 1]. *)
Definition arange (lo hi : Z) : list Z :=
  map (fun i => lo + Z.of_nat i) (seq 0 (Z.to_nat (hi - lo))).

Definition height {A : Type} (rows : list A) : Z := Z.of_nat (List.length rows).

(** [with_columns(col.alias(..))]: a column laid beside the rows. *)
Definition with_column {A B : Type} (col : list B) (rows : list A) : list (B * A) :=
  combine col rows.

(** *** [join(how="left")] *)

Definition key_matches (l r : option string) : bool :=
  match l, r with
  | Some a, Some b => String.eqb a b
  | _, _ => false
  end.

Definition join_left {L R : Type} (left_on : L -> option string)
    (right_on : R -> option string) (left : list L) (right : list R)
  : list (L * option R) :=
  flat_map
    (fun l =>
       match filter (fun r => key_matches (left_on l) (right_on r)) right with
       | [] => [(l, None)]
       | matched => map (fun r => (l, Some r)) matched
       end)
    left.

(** *** [unique(subset=key)] with [keep="any"], [maintain_order=False] *)

Class Unique : Type := {
  unique : forall {A K : Type}, (forall x y : K, {x = y} + {x <> y}) ->
                                (A -> K) -> list A -> list A;
  unique_NoDup : forall (A K : Type) dec (key : A -> K) (l : list A),
      NoDup (map key (unique dec key l));
  unique_In : forall (A K : Type) dec (key : A -> K) (l : list A) (x : A),
      In x (unique dec key l) -> In x l;
  unique_complete : forall (A K : Type) dec (key : A -> K) (l : list A) (x : A),
      In x l -> In (key x) (map key (unique dec key l))
}.

(** One admissible behaviour: the first row of every key, in input order
    (what [maintain_order=True], [keep="first"] would give). *)
Fixpoint keep_first {A K : Type} (dec : forall x y : K, {x = y} + {x <> y})
    (key : A -> K) (l : list A) : list A :=
  match l with
  | [] => []
  | x :: r =>
      x :: filter (fun y => if dec (key y) (key x) then false else true)
             (keep_first dec key r)
  end.

(** Another admissible behaviour: the same rows, in the opposite order. *)
Definition keep_first_reversed {A K : Type}
    (dec : forall x y : K, {x = y} + {x <> y}) (key : A -> K) (l : list A)
  : list A :=
  rev (keep_first dec key l).

(** *** [sort(key)], ascending, nulls first *)

Definition null_first_leb (a b : option Z) : bool :=
  match a, b with
  | None, _ => true
  | Some _, None => false
  | Some x, Some y => x <=? y
  end.

Fixpoint insert_by {A : Type} (key : A -> option Z) (x : A) (l : list A) : list A :=
  match l with
  | [] => [x]
  | y :: r =>
      if null_first_leb (key x) (key y) then x :: l
      else y :: insert_by key x r
  end.

Fixpoint sort {A : Type} (key : A -> option Z) (l : list A) : list A :=
  match l with
  | [] => []
  | x :: r => insert_by key x (sort key r)
  end.

End pl.

(** ** Tables *)

(** A raw charger record: one nullable cell for each column of
    [raw_data/fast_chargers.csv] that the program reads. *)
Record RawRow : Type := {
  ObjId : option Z;
  Operator : option string;
  Station_name : option string;
  Station_address : option string;
  Latitude : option float;
  Longitude : option float;
  Number_of_station : option Z;
  Number_of_plugs : option Z;
  CHAdeMO : option Z;
  CCS_SAE : option Z;
  Tesla_Fast : option Z
}.

(** A raw frame: the header and the rows.  The cell of a column that the
    header lacks cannot be read: every access goes through [select]. *)
Record DataFrame : Type := {
  columns : list string;
  rows : list RawRow
}.

Definition has_column (data : DataFrame) (c : string) : bool :=
  existsb (String.eqb c) (columns data).

(** [data.select(names)], and every other call that names columns: the first
    absent one is reported, otherwise the rows can be read. *)
Fixpoint select (names : list string) (data : DataFrame) : result (list RawRow) :=
  match names with
  | [] => ret (rows data)
  | c :: more =>
      if has_column data c then select more data
      else raise (ColumnNotFoundError c)
  end.

Module DimStation.
Record row : Type := {
  station_id : Z;
  station_name : option string;
  num_of_charging_stations : option Z;
  lat : option float;
  long : option float
}.
End DimStation.

Module DimOperator.
Record row : Type := {
  operator_name : string;
  operator_id : Z
}.
End DimOperator.

Module Fact.
Record row : Type := {
  charger_id : option Z;
  station_id : option Z;
  operator_id : option Z;
  chademo_plug_count : option Z;
  ccs_sae_plug_count : option Z;
  tesla_plug_count : option Z;
  total_plug_count : option Z
}.
End Fact.

Definition option_eq_dec {A : Type} (dec : forall x y : A, {x = y} + {x <> y})
  : forall x y : option A, {x = y} + {x <> y}.
Proof. decide equality. Defined.

Definition cell_string_dec := option_eq_dec string_dec.
Definition cell_Z_dec := option_eq_dec Z.eq_dec.

(** ** src/transform_data.py *)

Module transform_data.
Section WithUnique.
Context {U : pl.Unique}.

Definition dim_station (data : DataFrame) : result (list DimStation.row) :=
  renamed_columns <-
    select ["Station name"; "Station address"; "Latitude"; "Longitude";
            "Number of station"] data ;;
  ret (map
         (fun '(i, r) =>
            {| DimStation.station_id := i;
               DimStation.station_name := Station_name r;
               DimStation.num_of_charging_stations := Number_of_station r;
               DimStation.lat := Latitude r;
               DimStation.long := Longitude r |})
         (pl.with_column (pl.arange 1 (pl.height renamed_columns + 1))
                         renamed_columns)).

Definition dim_operator (data : DataFrame) : result (list DimOperator.row) :=
  selected <- select ["Operator"] data ;;
  let selected_columns :=
    pl.unique cell_string_dec (fun v => v) (map Operator selected) in
  let unknown := [Some "Unknown"] in
  let renamed_columns := selected_columns ++ unknown in
  ret (map
         (fun '(i, name) =>
            {| DimOperator.operator_name :=
                 pl.strip_chars (pl.fill_null "None" name);
               DimOperator.operator_id := i |})
         (pl.with_column (pl.arange 1 (pl.height renamed_columns + 1))
                         renamed_columns)).

(** The seven selected columns of one joined row, before the null
    operator ids are filled. *)
Definition selected_row
    (j : RawRow * option DimOperator.row * option DimStation.row) : Fact.row :=
  let '(r, op, st) := j in
  {| Fact.charger_id := ObjId r;
     Fact.station_id := option_map DimStation.station_id st;
     Fact.operator_id := option_map DimOperator.operator_id op;
     Fact.chademo_plug_count := CHAdeMO r;
     Fact.ccs_sae_plug_count := CCS_SAE r;
     Fact.tesla_plug_count := Tesla_Fast r;
     Fact.total_plug_count := Number_of_plugs r |}.

Definition fill_operator_id (v : Z) (f : Fact.row) : Fact.row :=
  {| Fact.charger_id := Fact.charger_id f;
     Fact.station_id := Fact.station_id f;
     Fact.operator_id := Some (pl.fill_null v (Fact.operator_id f));
     Fact.chademo_plug_count := Fact.chademo_plug_count f;
     Fact.ccs_sae_plug_count := Fact.ccs_sae_plug_count f;
     Fact.tesla_plug_count := Fact.tesla_plug_count f;
     Fact.total_plug_count := Fact.total_plug_count f |}.

(** [dim_operator_table.filter(operator_name == "Unknown")["operator_id"][0]] *)
Definition unknown_operator_id (dim_operator_table : list DimOperator.row)
  : result Z :=
  match filter (fun d => String.eqb (DimOperator.operator_name d) "Unknown")
               dim_operator_table with
  | [] => raise IndexError
  | d :: _ => ret (DimOperator.operator_id d)
  end.

Definition fact_ev_charger (data : DataFrame)
    (dim_operator_table : list DimOperator.row)
    (dim_station_table : list DimStation.row) : result (list Fact.row) :=
  left <- select ["Operator"; "Station name"] data ;;
  let temp_dataframe :=
    pl.join_left (fun j => Station_name (fst j)) DimStation.station_name
      (pl.join_left Operator
         (fun d => Some (DimOperator.operator_name d))
         left dim_operator_table)
      dim_station_table in
  _ <- select ["ObjId"; "Number of plugs"; "CHAdeMO"; "CCS/SAE";
               "Tesla(Fast)"] data ;;
  let selected := map selected_row temp_dataframe in
  unknown <- unknown_operator_id dim_operator_table ;;
  ret (pl.sort Fact.charger_id
         (pl.unique cell_Z_dec Fact.charger_id
            (map (fill_operator_id unknown) selected))).

End WithUnique.
End transform_data.


(** ** Output files *)

(** What [write_csv] stores: the table, header and rows in order.  The text
    of the file is a function of the table, so two files are the same text
    when they hold the same table. *)
Inductive Table : Type :=
| StationTable (t : list DimStation.row)
| OperatorTable (t : list DimOperator.row)
| FactTable (t : list Fact.row).

(** The output directory: the files in it, by path. *)
Definition Files : Type := list (string * Table).

Fixpoint read_file (path : string) (fs : Files) : option Table :=
  match fs with
  | [] => None
  | (p, t) :: more => if String.eqb p path then Some t else read_file path more
  end.

(** [table.write_csv(path)] creates the file or overwrites it. *)
Definition write_csv (path : string) (t : Table) (fs : Files) : Files :=
  (path, t) :: filter (fun e => negb (String.eqb (fst e) path)) fs.

(** ** src/build_table_files.py

    Every function runs on the output directory and returns it together
    with the error it raised, if any. *)

Module build_table_files.
Section WithUnique.
Context {U : pl.Unique}.

Definition build_dim_station (data : list DimStation.row) (fs : Files)
  : Files * result unit :=
  (write_csv "data_file_output/dim_station.csv" (StationTable data) fs, ret tt).

Definition build_dim_operator (data : list DimOperator.row) (fs : Files)
  : Files * result unit :=
  (write_csv "data_file_output/dim_operator.csv" (OperatorTable data) fs, ret tt).

Definition build_fact_ev_charger (data : DataFrame)
    (dim_operator : list DimOperator.row) (dim_station : list DimStation.row)
    (fs : Files) : Files * result unit :=
  match transform_data.fact_ev_charger data dim_operator dim_station with
  | inl e => (fs, raise e)
  | inr fact_ev_charger =>
      (write_csv "data_file_output/fact_ev_charger.csv"
         (FactTable fact_ev_charger) fs, ret tt)
  end.

Definition build_tables (data : DataFrame) (fs : Files) : Files * result unit :=
  match transform_data.dim_station data with
  | inl e => (fs, raise e)
  | inr dim_station_data =>
      match transform_data.dim_operator data with
      | inl e => (fs, raise e)
      | inr dim_operator_data =>
          match build_dim_station dim_station_data fs with
          | (fs1, inl e) => (fs1, raise e)
          | (fs1, inr _) =>
              match build_dim_operator dim_operator_data fs1 with
              | (fs2, inl e) => (fs2, raise e)
              | (fs2, inr _) =>
                  build_fact_ev_charger data dim_operator_data
                    dim_station_data fs2
              end
          end
      end
  end.

End WithUnique.
End build_table_files.

(** ** main.py *)

(** How a run of [main] ends: normally, with the diagnostic
    ["An error occurred: ..."] printed for a caught error, or with an error
    that no [except] clause matches and that leaves [main]. *)
Inductive Outcome : Type :=
| Completed
| Reported (e : exn)
| Unhandled (e : exn).

(** [pl.read_csv("raw_data/fast_chargers.csv")]; [input] is the frame the
    file holds, if the file exists. *)
Definition read_csv (input : option DataFrame) : result DataFrame :=
  match input with
  | None => raise FileNotFoundError
  | Some data => ret data
  end.

Definition main {U : pl.Unique} (input : option DataFrame) (fs : Files)
  : Files * Outcome :=
  let '(fs', r) :=
    match read_csv input with
    | inl e => (fs, raise e)
    | inr ev_charger_data => build_table_files.build_tables ev_charger_data fs
    end in
  match r with
  | inr _ => (fs', Completed)
  | inl FileNotFoundError => (fs', Reported FileNotFoundError)
  | inl SchemaError => (fs', Reported SchemaError)
  | inl e => (fs', Unhandled e)
  end.


(** ** Vocabulary of the properties *)

Definition station_columns : list string :=
  ["Station name"; "Station address"; "Latitude"; "Longitude";
   "Number of station"].

Definition required_columns : list string :=
  ["ObjId"; "Operator"; "Station name"; "Station address"; "Latitude";
   "Longitude"; "Number of station"; "Number of plugs"; "CHAdeMO"; "CCS/SAE";
   "Tesla(Fast)"].

(** The columns the fact builder names, in the order it reaches them: the
    two join keys, then the five renamed columns. *)
Definition fact_columns : list string :=
  ["Operator"; "Station name"; "ObjId"; "Number of plugs"; "CHAdeMO";
   "CCS/SAE"; "Tesla(Fast)"].

Definition output_paths : list string :=
  ["data_file_output/dim_station.csv"; "data_file_output/dim_operator.csv";
   "data_file_output/fact_ev_charger.csv"].

(** The frame's header has every column of [names]. *)
Definition has_columns (names : list string) (data : DataFrame) : bool :=
  forallb (has_column data) names.

(** The distinct values of a column in first-occurrence order (a null
    counts as one value). *)
Definition distinct_first_seen (col : list (option string)) : list (option string) :=
  pl.keep_first cell_string_dec (fun v => v) col.

(** What the operator builder makes of a raw operator cell. *)
Definition display_name (cell : option string) : string :=
  pl.strip_chars (pl.fill_null "None" cell).

Definition leading_whitespace (s : string) : bool :=
  match s with
  | EmptyString => false
  | String c _ => pl.is_whitespace c
  end.

Definition trailing_whitespace (s : string) : bool :=
  match rev (list_ascii_of_string s) with
  | [] => false
  | c :: _ => pl.is_whitespace c
  end.

Definition outer_whitespace (s : string) : bool :=
  leading_whitespace s || trailing_whitespace s.

Definition is_unknown (d : DimOperator.row) : bool :=
  String.eqb (DimOperator.operator_name d) "Unknown".

(** The number of rows named "Unknown". *)
Definition count_unknown (dim : list DimOperator.row) : nat :=
  List.length (filter is_unknown dim).

(** The row that [dim_operator] appends: the last one. *)
Definition sentinel_row (dim : list DimOperator.row) : option DimOperator.row :=
  nth_error dim (List.length dim - 1).

(** The row the fact builder looks up: the first one named "Unknown". *)
Definition first_unknown (dim : list DimOperator.row) : option DimOperator.row :=
  find is_unknown dim.

(** The selected rows of the two joins over the raw rows [rs], null
    operator ids filled with [unknown]: what the fact builder hands to
    [unique]. *)
Definition joined_fact_rows (dim_operator_table : list DimOperator.row)
    (dim_station_table : list DimStation.row) (unknown : Z) (rs : list RawRow)
  : list Fact.row :=
  map (transform_data.fill_operator_id unknown)
    (map transform_data.selected_row
       (pl.join_left (fun j => Station_name (fst j)) DimStation.station_name
          (pl.join_left Operator
             (fun d => Some (DimOperator.operator_name d))
             rs dim_operator_table)
          dim_station_table)).

(** The fact rows one raw row gives rise to: one for every pair of matching
    dimension rows. *)
Definition fact_rows_of (dim_operator_table : list DimOperator.row)
    (dim_station_table : list DimStation.row) (unknown : Z) (r : RawRow)
  : list Fact.row :=
  joined_fact_rows dim_operator_table dim_station_table unknown [r].

(** The fact row carries the charger cells of the raw row. *)
Definition derived_from (r : RawRow) (f : Fact.row) : Prop :=
  Fact.charger_id f = ObjId r /\
  Fact.chademo_plug_count f = CHAdeMO r /\
  Fact.ccs_sae_plug_count f = CCS_SAE r /\
  Fact.tesla_plug_count f = Tesla_Fast r /\
  Fact.total_plug_count f = Number_of_plugs r.

(** The three tables of one run over [data], and the id [u] the fact
    builder fills null operator ids with. *)
Definition pipeline_tables {U : pl.Unique} (data : DataFrame)
    (dop : list DimOperator.row) (dst : list DimStation.row)
    (fact : list Fact.row) (u : Z) : Prop :=
  transform_data.dim_operator data = inr dop /\
  transform_data.dim_station data = inr dst /\
  transform_data.fact_ev_charger data dop dst = inr fact /\
  (exists s, first_unknown dop = Some s /\ DimOperator.operator_id s = u) /\
  (forall f, In f fact ->
     exists r, In r (rows data) /\ In f (fact_rows_of dop dst u r)).

(** The order of [sort] on charger ids. *)
Definition charger_le (a b : option Z) : Prop := pl.null_first_leb a b = true.

(** A left row is paired with [Some r] for a matching right row [r], and
    with [None] when no right row matches. *)
Definition joined_with {L R : Type} (left_on : L -> option string)
    (right_on : R -> option string) (right : list R) (l : L) (o : option R) : Prop :=
  match o with
  | None => forall r, In r right -> pl.key_matches (left_on l) (right_on r) = false
  | Some r => In r right /\ pl.key_matches (left_on l) (right_on r) = true
  end.

(** The operator table over a column of cells: names cleaned, rows
    numbered from 1. *)
Definition operator_table (cells : list (option string)) : list DimOperator.row :=
  map (fun '(i, name) =>
         {| DimOperator.operator_name := pl.strip_chars (pl.fill_null "None" name);
            DimOperator.operator_id := i |})
      (pl.with_column (pl.arange 1 (pl.height cells + 1)) cells).

(** ** Sample frames *)

Definition raw_row (id : Z) (operator station : option string) : RawRow :=
  {| ObjId := Some id;
     Operator := operator;
     Station_name := station;
     Station_address := None;
     Latitude := None;
     Longitude := None;
     Number_of_station := Some 1;
     Number_of_plugs := Some 2;
     CHAdeMO := Some 1;
     CCS_SAE := Some 1;
     Tesla_Fast := Some 0 |}.

Definition frame (rs : list RawRow) : DataFrame :=
  {| columns := required_columns; rows := rs |}.

(** Two chargers of one station, run by two operators. *)
Definition two_chargers_one_station : DataFrame :=
  frame [raw_row 10 (Some "Acme") (Some "Station A");
         raw_row 11 (Some "Bolt") (Some "Station A")].

(** Two rows of "Station A", operators "Acme" and null. *)
Definition acme_and_null : DataFrame :=
  frame [raw_row 1 (Some "Acme") (Some "Station A");
         raw_row 2 None (Some "Station A")].

(** Two operator names that differ in a trailing space. *)
Definition acme_twice : DataFrame :=
  frame [raw_row 20 (Some "Acme") (Some "Station A");
         raw_row 21 (Some "Acme ") (Some "Station B")].

(** The operator table of [acme_twice] when the values come back in input
    order, and the fact table over it and an empty station table. *)
Definition acme_twice_operators : list DimOperator.row :=
  [ {| DimOperator.operator_name := "Acme"; DimOperator.operator_id := 1 |};
    {| DimOperator.operator_name := "Acme"; DimOperator.operator_id := 2 |};
    {| DimOperator.operator_name := "Unknown"; DimOperator.operator_id := 3 |} ].

Definition acme_twice_fact : list Fact.row :=
  [ {| Fact.charger_id := Some 20; Fact.station_id := None;
       Fact.operator_id := Some 1; Fact.chademo_plug_count := Some 1;
       Fact.ccs_sae_plug_count := Some 1; Fact.tesla_plug_count := Some 0;
       Fact.total_plug_count := Some 2 |};
    {| Fact.charger_id := Some 21; Fact.station_id := None;
       Fact.operator_id := Some 3; Fact.chademo_plug_count := Some 1;
       Fact.ccs_sae_plug_count := Some 1; Fact.tesla_plug_count := Some 0;
       Fact.total_plug_count := Some 2 |} ].

(** One charger whose operator is written with a leading space and trims
    to "Unknown". *)
Definition padded_unknown : DataFrame :=
  frame [raw_row 30 (Some " Unknown") (Some "Station A")].

(** A frame whose header lacks "ObjId". *)
Definition no_ObjId : DataFrame :=
  {| columns := ["Operator"; "Station name"; "Station address"; "Latitude";
                 "Longitude"; "Number of station"; "Number of plugs";
                 "CHAdeMO"; "CCS/SAE"; "Tesla(Fast)"];
     rows := [raw_row 40 (Some "Acme") (Some "Station A")] |}.

(** A frame whose header lacks "Station name". *)
Definition no_Station_name : DataFrame :=
  {| columns := ["ObjId"; "Operator"; "Station address"; "Latitude";
                 "Longitude"; "Number of station"; "Number of plugs";
                 "CHAdeMO"; "CCS/SAE"; "Tesla(Fast)"];
     rows := [raw_row 50 (Some "Acme") (Some "Station A")] |}.

(** ** Readings of the specification *)

(** The reading of the specification: one row for each distinct station
    name, in first-seen order. *)
Definition one_row_per_distinct_station (data : DataFrame)
    (out : list DimStation.row) : Prop :=
  map DimStation.station_name out =
  distinct_first_seen (map Station_name (rows data)).

(** The reading of the specification: the distinct operator values in
    first-occurrence order, the sentinel last, numbered from 1. *)
Definition first_seen_then_sentinel (data : DataFrame)
    (out : list DimOperator.row) : Prop :=
  out = operator_table
          (distinct_first_seen (map Operator (rows data)) ++ [Some "Unknown"]).

(** The reading of the specification: one row named "Unknown", unless a raw
    operator value is itself "Unknown". *)
Definition one_unknown_unless_raw_unknown (data : DataFrame)
    (out : list DimOperator.row) : Prop :=
  (forall r, In r (rows data) -> Operator r <> Some "Unknown") ->
  count_unknown out = 1%nat.

(** The reading of the specification: the operator id of a fact row is that
    of a dimension row named as the raw row's operator, and otherwise that
    of the sentinel row, the one the operator builder appended. *)
Definition resolves_to_match_or_sentinel (dim : list DimOperator.row)
    (r : RawRow) (f : Fact.row) : Prop :=
  exists id, Fact.operator_id f = Some id /\
    ((exists d, In d dim /\ Operator r = Some (DimOperator.operator_name d) /\
                id = DimOperator.operator_id d) \/
     ((forall d, In d dim -> Operator r <> Some (DimOperator.operator_name d)) /\
      exists s, sentinel_row dim = Some s /\ id = DimOperator.operator_id s)).

(** What the code does: otherwise, the id of the first row named "Unknown". *)
Definition resolves_to_match_or_first_unknown (dim : list DimOperator.row)
    (r : RawRow) (f : Fact.row) : Prop :=
  exists id, Fact.operator_id f = Some id /\
    ((exists d, In d dim /\ Operator r = Some (DimOperator.operator_name d) /\
                id = DimOperator.operator_id d) \/
     ((forall d, In d dim -> Operator r <> Some (DimOperator.operator_name d)) /\
      exists s, first_unknown dim = Some s /\ id = DimOperator.operator_id s)).

(** The reading of the specification: the fact row of a raw row whose
    operator has outer white space carries the id of the appended sentinel
    row, and not the id of the dimension row made from its own operator
    value. *)
Definition receives_sentinel_not_own (dim : list DimOperator.row)
    (r : RawRow) (f : Fact.row) : Prop :=
  (exists s, sentinel_row dim = Some s /\
             Fact.operator_id f = Some (DimOperator.operator_id s)) /\
  (forall d, In d dim ->
     DimOperator.operator_name d = display_name (Operator r) ->
     sentinel_row dim <> Some d ->
     Fact.operator_id f <> Some (DimOperator.operator_id d)).

(** The reading of the specification: a run that fails leaves no output
    file behind. *)
Definition no_partial_output (fs' : Files) : Prop :=
  forall path, read_file path fs' = None.

(** ** Facts about the polars operations *)

Lemma select_ok (names : list string) (data : DataFrame) :
  has_columns names data = true -> select names data = inr (rows data).
Proof.
  unfold has_columns.
  induction names as [|c more IH]; simpl; intros H.
  - reflexivity.
  - apply andb_true_iff in H as [Hc Hmore].
    rewrite Hc. now apply IH.
Qed.

Lemma select_inr (names : list string) (data : DataFrame) (rs : list RawRow) :
  select names data = inr rs -> rs = rows data /\ has_columns names data = true.
Proof.
  unfold has_columns.
  induction names as [|c more IH]; simpl.
  - intros H. inversion H. auto.
  - destruct (has_column data c); simpl.
    + exact IH.
    + discriminate.
Qed.

Lemma select_inl (names : list string) (data : DataFrame) (e : exn) :
  select names data = inl e ->
  exists c, e = ColumnNotFoundError c /\ In c names /\ has_column data c = false.
Proof.
  induction names as [|c more IH]; simpl.
  - discriminate.
  - destruct (has_column data c) eqn:Hc.
    + intros H. destruct (IH H) as (c' & ? & ? & ?). exists c'. auto.
    + intros H. inversion H. exists c. auto.
Qed.

Lemma has_columns_incl (names names' : list string) (data : DataFrame) :
  incl names' names -> has_columns names data = true ->
  has_columns names' data = true.
Proof.
  unfold has_columns. rewrite !forallb_forall. auto.
Qed.

(** *** Row numbering *)

Lemma arange_height {A : Type} (l : list A) :
  pl.arange 1 (pl.height l + 1) =
  map (fun i => 1 + Z.of_nat i) (seq 0 (List.length l)).
Proof.
  unfold pl.arange, pl.height.
  replace (Z.to_nat (Z.of_nat (List.length l) + 1 - 1)) with (List.length l) by lia.
  reflexivity.
Qed.

Lemma numbered_snd {A : Type} (l : list A) :
  map snd (pl.with_column (pl.arange 1 (pl.height l + 1)) l) = l.
Proof.
  unfold pl.with_column. rewrite arange_height.
  generalize 0%nat. induction l as [|x l IH]; intros s; simpl.
  - reflexivity.
  - f_equal. apply IH.
Qed.

Lemma numbered_fst {A : Type} (l : list A) :
  map fst (pl.with_column (pl.arange 1 (pl.height l + 1)) l) =
  pl.arange 1 (pl.height l + 1).
Proof.
  unfold pl.with_column. rewrite arange_height.
  generalize 0%nat. induction l as [|x l IH]; intros s; simpl.
  - reflexivity.
  - f_equal. apply IH.
Qed.

(** *** [unique]: the two behaviours meet the contract *)

Section KeepFirst.
Context {A K : Type} (dec : forall x y : K, {x = y} + {x <> y}) (key : A -> K).

Lemma keep_first_In (l : list A) (x : A) : In x (pl.keep_first dec key l) -> In x l.
Proof.
  induction l as [|y l IH]; simpl; [tauto|].
  intros [H | H]; [now left|].
  apply filter_In in H as [H _]. right. now apply IH.
Qed.

Lemma keep_first_complete (l : list A) (x : A) :
  In x l -> In (key x) (map key (pl.keep_first dec key l)).
Proof.
  induction l as [|y l IH]; simpl; [tauto|].
  intros [H | H].
  - left. now subst.
  - destruct (dec (key x) (key y)) as [E | N].
    + left. now symmetry.
    + right. specialize (IH H). apply in_map_iff in IH as (x' & Hk & Hx').
      apply in_map_iff. exists x'. split; [exact Hk|].
      apply filter_In. split; [exact Hx'|].
      rewrite Hk. now destruct (dec (key x) (key y)).
Qed.

Lemma keep_first_NoDup (l : list A) : NoDup (map key (pl.keep_first dec key l)).
Proof.
  induction l as [|y l IH]; simpl; constructor.
  - intros H. apply in_map_iff in H as (x & Hk & Hx).
    apply filter_In in Hx as [_ Hx].
    now destruct (dec (key x) (key y)).
  - revert IH. generalize (pl.keep_first dec key l). intros m.
    induction m as [|z m IHm]; simpl; intros Hnd; [constructor|].
    inversion Hnd as [|? ? Hnotin Hnd']; subst.
    destruct (dec (key z) (key y)); simpl; auto.
    constructor; auto.
    intros H. apply Hnotin. apply in_map_iff in H as (x & Hk & Hx).
    apply filter_In in Hx as [Hx _]. apply in_map_iff. now exists x.
Qed.

End KeepFirst.

(** [unique] keeping the first row of each key, in input order. *)
Definition first_seen_unique : pl.Unique := {|
  pl.unique := @pl.keep_first;
  pl.unique_NoDup := @keep_first_NoDup;
  pl.unique_In := @keep_first_In;
  pl.unique_complete := @keep_first_complete
|}.

Lemma keep_first_reversed_NoDup (A K : Type) dec (key : A -> K) (l : list A) :
  NoDup (map key (pl.keep_first_reversed dec key l)).
Proof.
  unfold pl.keep_first_reversed. rewrite map_rev.
  apply NoDup_rev, keep_first_NoDup.
Qed.

Lemma keep_first_reversed_In (A K : Type) dec (key : A -> K) (l : list A) (x : A) :
  In x (pl.keep_first_reversed dec key l) -> In x l.
Proof.
  unfold pl.keep_first_reversed. rewrite <- in_rev. apply keep_first_In.
Qed.

Lemma keep_first_reversed_complete (A K : Type) dec (key : A -> K) (l : list A) (x : A) :
  In x l -> In (key x) (map key (pl.keep_first_reversed dec key l)).
Proof.
  unfold pl.keep_first_reversed. rewrite map_rev, <- in_rev.
  apply keep_first_complete.
Qed.

(** [unique] returning the kept rows in the opposite order. *)
Definition reversed_unique : pl.Unique := {|
  pl.unique := @pl.keep_first_reversed;
  pl.unique_NoDup := keep_first_reversed_NoDup;
  pl.unique_In := keep_first_reversed_In;
  pl.unique_complete := keep_first_reversed_complete
|}.

(** On a single column every behaviour of [unique] returns the distinct
    values, each once, in some order. *)
Lemma unique_column_Permutation {U : pl.Unique} (col : list (option string)) :
  Permutation (pl.unique cell_string_dec (fun v => v) col) (distinct_first_seen col).
Proof.
  unfold distinct_first_seen.
  pose proof (pl.unique_NoDup _ _ cell_string_dec (fun v => v) col) as N1.
  pose proof (keep_first_NoDup cell_string_dec (fun v : option string => v) col) as N2.
  rewrite map_id in N1, N2.
  apply NoDup_Permutation; auto.
  intros v. split; intros H.
  - apply pl.unique_In in H.
    pose proof (keep_first_complete cell_string_dec (fun v => v) col v H) as H'.
    now rewrite map_id in H'.
  - apply keep_first_In in H.
    pose proof (pl.unique_complete _ _ cell_string_dec (fun v => v) col v H) as H'.
    now rewrite map_id in H'.
Qed.

Lemma unique_column_In {U : pl.Unique} (col : list (option string)) (v : option string) :
  In v (pl.unique cell_string_dec (fun v => v) col) <-> In v col.
Proof.
  split; intros H.
  - now apply pl.unique_In in H.
  - pose proof (pl.unique_complete _ _ cell_string_dec (fun v => v) col v H) as H'.
    now rewrite map_id in H'.
Qed.

(** *** [sort] *)

Lemma insert_by_Permutation {A : Type} (key : A -> option Z) (x : A) (l : list A) :
  Permutation (pl.insert_by key x l) (x :: l).
Proof.
  induction l as [|y l IH]; simpl; auto.
  destruct (pl.null_first_leb (key x) (key y)); auto.
  rewrite IH. apply perm_swap.
Qed.

Lemma sort_Permutation {A : Type} (key : A -> option Z) (l : list A) :
  Permutation (pl.sort key l) l.
Proof.
  induction l as [|x l IH]; simpl; auto.
  rewrite insert_by_Permutation. now constructor.
Qed.

Lemma null_first_leb_total (a b : option Z) :
  pl.null_first_leb a b = false -> pl.null_first_leb b a = true.
Proof.
  destruct a, b; simpl; try discriminate; auto.
  rewrite Z.leb_gt, Z.leb_le. lia.
Qed.

Lemma null_first_leb_trans (a b c : option Z) :
  charger_le a b -> charger_le b c -> charger_le a c.
Proof.
  unfold charger_le. destruct a, b, c; simpl; try discriminate; auto.
  rewrite !Z.leb_le. lia.
Qed.

Lemma null_first_leb_antisym (a b : option Z) :
  charger_le a b -> charger_le b a -> a = b.
Proof.
  unfold charger_le. destruct a, b; simpl; try discriminate; auto.
  rewrite !Z.leb_le. intros. f_equal. lia.
Qed.

Lemma insert_by_sorted {A : Type} (key : A -> option Z) (x : A) (l : list A) :
  StronglySorted (fun a b => charger_le (key a) (key b)) l ->
  StronglySorted (fun a b => charger_le (key a) (key b)) (pl.insert_by key x l).
Proof.
  induction l as [|y l IH]; simpl; intros S.
  - repeat constructor.
  - inversion S as [|? ? S' F]; subst.
    destruct (pl.null_first_leb (key x) (key y)) eqn:E.
    + constructor; [exact S|]. constructor; [exact E|].
      eapply Forall_impl; [|exact F]. intros a Ha.
      eapply null_first_leb_trans; [exact E | exact Ha].
    + constructor; [now apply IH|].
      apply null_first_leb_total in E.
      eapply Permutation_Forall.
      * symmetry. apply insert_by_Permutation.
      * constructor; assumption.
Qed.

Lemma sort_sorted {A : Type} (key : A -> option Z) (l : list A) :
  StronglySorted (fun a b => charger_le (key a) (key b)) (pl.sort key l).
Proof.
  induction l as [|x l IH]; simpl.
  - constructor.
  - now apply insert_by_sorted.
Qed.

(** Two sorted columns without duplicates that hold the same values are the
    same column. *)
Lemma sorted_NoDup_unique (l m : list (option Z)) :
  StronglySorted charger_le l -> StronglySorted charger_le m ->
  NoDup l -> NoDup m -> (forall a, In a l <-> In a m) -> l = m.
Proof.
  revert m. induction l as [|x l IH]; intros m Sl Sm Nl Nm E.
  - destruct m as [|y m]; [reflexivity|].
    exfalso. apply (E y). now left.
  - destruct m as [|y m].
    + exfalso. apply (E x). now left.
    + inversion Sl as [|? ? Sl' Fl]; inversion Sm as [|? ? Sm' Fm]; subst.
      inversion Nl as [|? ? nl Nl']; inversion Nm as [|? ? nm Nm']; subst.
      rewrite Forall_forall in Fl, Fm.
      assert (x = y) as ->.
      { destruct (proj1 (E x) (or_introl eq_refl)) as [H | H]; [now symmetry|].
        destruct (proj2 (E y) (or_introl eq_refl)) as [H' | H']; [exact H'|].
        apply null_first_leb_antisym; auto. }
      f_equal. apply IH; auto.
      intros a. split; intros H.
      * destruct (proj1 (E a) (or_intror H)) as [H' | H']; [|exact H'].
        subst. contradiction.
      * destruct (proj2 (E a) (or_intror H)) as [H' | H']; [|exact H'].
        subst. contradiction.
Qed.

(** *** [join(how="left")] *)

Lemma join_left_In {L R : Type} (left_on : L -> option string)
    (right_on : R -> option string) (left : list L) (right : list R)
    (l : L) (o : option R) :
  In (l, o) (pl.join_left left_on right_on left right) <->
  In l left /\ joined_with left_on right_on right l o.
Proof.
  unfold pl.join_left. rewrite in_flat_map. split.
  - intros (l' & Hl' & H).
    destruct (filter _ right) as [|m ms] eqn:E.
    + destruct H as [H | []]. inversion H; subst. split; [exact Hl'|].
      simpl. intros r Hr.
      destruct (pl.key_matches (left_on l) (right_on r)) eqn:M; [|reflexivity].
      assert (In r (filter (fun r => pl.key_matches (left_on l) (right_on r)) right))
        as Hin by (apply filter_In; auto).
      rewrite E in Hin. destruct Hin.
    + apply in_map_iff in H as (r & H & Hr). inversion H; subst.
      split; [exact Hl'|]. simpl. rewrite <- E in Hr.
      now apply filter_In in Hr.
  - intros (Hl & H). exists l. split; [exact Hl|].
    destruct o as [r|]; simpl in H.
    + assert (In r (filter (fun r => pl.key_matches (left_on l) (right_on r)) right))
        as Hin by (apply filter_In; tauto).
      destruct (filter _ right) as [|m ms] eqn:E; [destruct Hin|].
      apply in_map_iff. now exists r.
    + destruct (filter _ right) as [|m ms] eqn:E; [now left|].
      assert (In m (filter (fun r => pl.key_matches (left_on l) (right_on r)) right))
        as Hin by (rewrite E; now left).
      apply filter_In in Hin as [Hm Hk]. rewrite (H m Hm) in Hk. discriminate.
Qed.

(** Every left row is kept. *)
Lemma join_left_total {L R : Type} (left_on : L -> option string)
    (right_on : R -> option string) (right : list R) (l : L) :
  exists o, joined_with left_on right_on right l o.
Proof.
  destruct (filter (fun r => pl.key_matches (left_on l) (right_on r)) right)
    as [|m ms] eqn:E.
  - exists None. simpl. intros r Hr.
    destruct (pl.key_matches (left_on l) (right_on r)) eqn:M; [|reflexivity].
    assert (In r (filter (fun r => pl.key_matches (left_on l) (right_on r)) right))
      as Hin by (apply filter_In; auto).
    rewrite E in Hin. destruct Hin.
  - exists (Some m). simpl.
    apply (filter_In (fun r => pl.key_matches (left_on l) (right_on r))).
    rewrite E. now left.
Qed.

Lemma key_matches_eq (a b : option string) :
  pl.key_matches a b = true <-> exists s, a = Some s /\ b = Some s.
Proof.
  destruct a as [a|], b as [b|]; simpl; split; try discriminate.
  - intros H. apply String.eqb_eq in H. subst. now exists b.
  - intros (s & Ha & Hb). inversion Ha; inversion Hb; subst. apply String.eqb_refl.
  - intros (s & Ha & Hb). discriminate.
  - intros (s & Ha & Hb). discriminate.
  - intros (s & Ha & Hb). discriminate.
Qed.

(** *** [strip_chars] *)

Lemma trim_start_head (l : list ascii) :
  match pl.trim_start l with
  | [] => True
  | c :: _ => pl.is_whitespace c = false
  end.
Proof.
  induction l as [|c l IH]; simpl; [exact I|].
  destruct (pl.is_whitespace c) eqn:E; [exact IH | exact E].
Qed.

Lemma trim_start_snoc (l : list ascii) (c : ascii) :
  pl.is_whitespace c = false ->
  pl.trim_start (l ++ [c]) = pl.trim_start l ++ [c].
Proof.
  intros Hc. induction l as [|a l IH]; simpl.
  - now rewrite Hc.
  - destruct (pl.is_whitespace a); [exact IH | reflexivity].
Qed.

Lemma trim_end_head (l : list ascii) :
  match l with
  | [] => True
  | c :: _ => pl.is_whitespace c = false
  end ->
  match pl.trim_end l with
  | [] => True
  | c :: _ => pl.is_whitespace c = false
  end.
Proof.
  destruct l as [|c l]; [intros _; exact I|]. intros Hc.
  unfold pl.trim_end. simpl rev at 2.
  rewrite trim_start_snoc by exact Hc.
  rewrite rev_app_distr. simpl. exact Hc.
Qed.

Lemma leading_whitespace_of_list (l : list ascii) :
  leading_whitespace (string_of_list_ascii l) =
  match l with
  | [] => false
  | c :: _ => pl.is_whitespace c
  end.
Proof. destruct l; reflexivity. Qed.

(** A stripped name has no white space at either end. *)
Lemma strip_chars_clean (s : string) : outer_whitespace (pl.strip_chars s) = false.
Proof.
  unfold outer_whitespace, pl.strip_chars. apply orb_false_iff. split.
  - rewrite leading_whitespace_of_list.
    pose proof (trim_end_head _ (trim_start_head (list_ascii_of_string s))) as H.
    destruct (pl.trim_end _); [reflexivity | exact H].
  - unfold trailing_whitespace.
    rewrite list_ascii_of_string_of_list_ascii.
    unfold pl.trim_end. rewrite rev_involutive.
    pose proof (trim_start_head (rev (pl.trim_start (list_ascii_of_string s)))) as H.
    destruct (pl.trim_start (rev _)); [reflexivity | exact H].
Qed.

Lemma display_name_clean (cell : option string) :
  outer_whitespace (display_name cell) = false.
Proof. apply strip_chars_clean. Qed.

(** ** The dimension builders *)

Lemma numbered_from_nth_error {A : Type} (l : list A) (s i : nat) :
  nth_error (combine (map (fun i => 1 + Z.of_nat i) (seq s (List.length l))) l) i =
  option_map (fun x => (1 + Z.of_nat (s + i), x)) (nth_error l i).
Proof.
  revert s i. induction l as [|y l IH]; intros s i;
    cbn [List.length seq map combine].
  - destruct i; reflexivity.
  - destruct i as [|i]; cbn [nth_error option_map].
    + now rewrite Nat.add_0_r.
    + rewrite IH. replace (S s + i)%nat with (s + S i)%nat by lia. reflexivity.
Qed.

Lemma numbered_nth_error {A : Type} (l : list A) (i : nat) :
  nth_error (pl.with_column (pl.arange 1 (pl.height l + 1)) l) i =
  option_map (fun x => (Z.of_nat i + 1, x)) (nth_error l i).
Proof.
  unfold pl.with_column. rewrite arange_height, numbered_from_nth_error.
  destruct (nth_error l i); cbn [option_map]; [|reflexivity].
  change (0 + i)%nat with i. do 2 f_equal. lia.
Qed.

Lemma dim_operator_inr {U : pl.Unique} (data : DataFrame) :
  has_columns ["Operator"] data = true ->
  transform_data.dim_operator data =
  inr (operator_table
         (pl.unique cell_string_dec (fun v => v) (map Operator (rows data))
          ++ [Some "Unknown"])).
Proof.
  intros H. unfold transform_data.dim_operator.
  rewrite (select_ok _ _ H). reflexivity.
Qed.

Lemma operator_table_nth_error (cells : list (option string)) (i : nat) :
  nth_error (operator_table cells) i =
  option_map (fun c => {| DimOperator.operator_name := display_name c;
                          DimOperator.operator_id := Z.of_nat i + 1 |})
             (nth_error cells i).
Proof.
  unfold operator_table. rewrite nth_error_map, numbered_nth_error.
  destruct (nth_error cells i); reflexivity.
Qed.

Lemma operator_table_length (cells : list (option string)) :
  List.length (operator_table cells) = List.length cells.
Proof.
  unfold operator_table, pl.with_column.
  rewrite length_map, length_combine, arange_height, length_map, length_seq.
  lia.
Qed.

Lemma operator_table_In (cells : list (option string)) (d : DimOperator.row) :
  In d (operator_table cells) <->
  exists i c, nth_error cells i = Some c /\
              d = {| DimOperator.operator_name := display_name c;
                     DimOperator.operator_id := Z.of_nat i + 1 |}.
Proof.
  split.
  - intros H. apply In_nth_error in H as (i & H).
    rewrite operator_table_nth_error in H.
    destruct (nth_error cells i) as [c|] eqn:E; [|discriminate].
    exists i, c. split; [exact E|]. now inversion H.
  - intros (i & c & E & ->). apply nth_error_In with (n := i).
    now rewrite operator_table_nth_error, E.
Qed.

Lemma operator_table_names (cells : list (option string)) :
  map DimOperator.operator_name (operator_table cells) = map display_name cells.
Proof.
  transitivity
    (map display_name
       (map snd (pl.with_column (pl.arange 1 (pl.height cells + 1)) cells))).
  - unfold operator_table. rewrite !map_map. apply map_ext. now intros [i c].
  - now rewrite numbered_snd.
Qed.

Lemma operator_table_ids (cells : list (option string)) :
  map DimOperator.operator_id (operator_table cells) =
  pl.arange 1 (pl.height cells + 1).
Proof.
  rewrite <- (numbered_fst cells).
  unfold operator_table. rewrite map_map. apply map_ext. now intros [i c].
Qed.

(** The appended row is the last one, numbered one past the rows before. *)
Lemma operator_table_sentinel (cells : list (option string)) :
  sentinel_row (operator_table (cells ++ [Some "Unknown"])) =
  Some {| DimOperator.operator_name := "Unknown";
          DimOperator.operator_id := Z.of_nat (List.length cells) + 1 |}.
Proof.
  unfold sentinel_row.
  rewrite operator_table_length, length_app. cbn [List.length].
  replace (List.length cells + 1 - 1)%nat with (List.length cells) by lia.
  rewrite operator_table_nth_error, nth_error_app2, Nat.sub_diag by lia.
  reflexivity.
Qed.

Lemma nth_error_Some_lt {A : Type} (l : list A) (i : nat) (x : A) :
  nth_error l i = Some x -> (i < List.length l)%nat.
Proof. intros H. apply nth_error_Some. now rewrite H. Qed.

Lemma filter_none {A : Type} (f : A -> bool) (l : list A) :
  (forall x, In x l -> f x = false) -> filter f l = [].
Proof.
  induction l as [|a l IH]; simpl; intros H; [reflexivity|].
  rewrite (H a) by now left. apply IH. intros x Hx. apply H. now right.
Qed.

Lemma find_nth_error {A : Type} (P : A -> bool) (l : list A) (i : nat) (x : A) :
  (forall j y, (j < i)%nat -> nth_error l j = Some y -> P y = false) ->
  nth_error l i = Some x -> P x = true -> find P l = Some x.
Proof.
  revert i. induction l as [|a l IH]; intros i Hlt Hi Hx.
  - destruct i; discriminate.
  - destruct i as [|i]; simpl in *.
    + inversion Hi; subst. now rewrite Hx.
    + rewrite (Hlt 0%nat a) by (auto; lia).
      apply (IH i); auto.
      intros j y Hj. apply (Hlt (S j)). lia.
Qed.

Lemma unknown_operator_id_first (dim : list DimOperator.row) :
  transform_data.unknown_operator_id dim =
  match first_unknown dim with
  | Some d => inr (DimOperator.operator_id d)
  | None => inl IndexError
  end.
Proof.
  unfold transform_data.unknown_operator_id, first_unknown.
  induction dim as [|d dim IH]; simpl; [reflexivity|].
  fold (is_unknown d). destruct (is_unknown d); [reflexivity | exact IH].
Qed.

(** A table built by the operator builder always has a row named
    "Unknown": the lookup of the fact builder finds one. *)
Lemma first_unknown_exists (cells : list (option string)) :
  exists d, first_unknown (operator_table (cells ++ [Some "Unknown"])) = Some d /\
            In d (operator_table (cells ++ [Some "Unknown"])) /\
            DimOperator.operator_name d = "Unknown".
Proof.
  unfold first_unknown.
  destruct (find is_unknown (operator_table (cells ++ [Some "Unknown"])))
    as [d|] eqn:E.
  - exists d. apply find_some in E as [Hin Hu].
    repeat split; auto. now apply String.eqb_eq in Hu.
  - exfalso.
    pose proof (operator_table_sentinel cells) as S.
    unfold sentinel_row in S. apply nth_error_In in S.
    now pose proof (find_none _ _ E _ S).
Qed.

(** When no raw operator value trims to "Unknown", the row the fact builder
    finds is the appended one. *)
Lemma first_unknown_sentinel (cells : list (option string)) :
  (forall c, In c cells -> display_name c <> "Unknown") ->
  first_unknown (operator_table (cells ++ [Some "Unknown"])) =
  sentinel_row (operator_table (cells ++ [Some "Unknown"])).
Proof.
  intros H. rewrite operator_table_sentinel. unfold first_unknown.
  apply find_nth_error with (i := List.length cells).
  - intros j y Hj Hy. rewrite operator_table_nth_error in Hy.
    rewrite nth_error_app1 in Hy by exact Hj.
    destruct (nth_error cells j) as [c|] eqn:E; [|discriminate].
    inversion Hy; subst. unfold is_unknown. simpl.
    apply String.eqb_neq. apply H. now apply nth_error_In in E.
  - rewrite operator_table_nth_error, nth_error_app2, Nat.sub_diag by lia.
    reflexivity.
  - reflexivity.
Qed.

Lemma dim_station_inr (data : DataFrame) :
  has_columns station_columns data = true ->
  exists out, transform_data.dim_station data = inr out /\
    forall i, nth_error out i =
      option_map
        (fun r => {| DimStation.station_id := Z.of_nat i + 1;
                     DimStation.station_name := Station_name r;
                     DimStation.num_of_charging_stations := Number_of_station r;
                     DimStation.lat := Latitude r;
                     DimStation.long := Longitude r |})
        (nth_error (rows data) i).
Proof.
  intros H. unfold transform_data.dim_station.
  unfold station_columns in H.
  rewrite (select_ok _ _ H). eexists. split; [reflexivity|].
  intros i. rewrite nth_error_map, numbered_nth_error.
  destruct (nth_error (rows data) i); reflexivity.
Qed.

Lemma count_unknown_names (dim : list DimOperator.row) :
  count_unknown dim =
  List.length (filter (fun n => String.eqb n "Unknown")
                 (map DimOperator.operator_name dim)).
Proof.
  unfold count_unknown. induction dim as [|d dim IH]; simpl; [reflexivity|].
  unfold is_unknown at 1. destruct (String.eqb _ _); simpl; now rewrite IH.
Qed.

(** ** The station dimension *)

(** C6, as stated, fails: two chargers of the same station give two station
    rows, where the distinct station names are one. *)
Lemma C6_counterexample :
  exists out, transform_data.dim_station two_chargers_one_station = inr out /\
              List.length out = 2%nat /\
              ~ one_row_per_distinct_station two_chargers_one_station out.
Proof.
  eexists. split; [reflexivity|]. split; [reflexivity|].
  unfold one_row_per_distinct_station. vm_compute. discriminate.
Qed.

(** C6, amended: for every raw batch with the station columns, [dim_station]
    returns one row for every raw row (no deduplication), in input order:
    row [i] carries the station cells of raw row [i] and the 1-based
    position as [station_id]. *)
Theorem C6_dim_station_one_row_per_raw_row (data : DataFrame) :
  has_columns station_columns data = true ->
  exists out, transform_data.dim_station data = inr out /\
    List.length out = List.length (rows data) /\
    forall i, nth_error out i =
      option_map
        (fun r => {| DimStation.station_id := Z.of_nat i + 1;
                     DimStation.station_name := Station_name r;
                     DimStation.num_of_charging_stations := Number_of_station r;
                     DimStation.lat := Latitude r;
                     DimStation.long := Longitude r |})
        (nth_error (rows data) i).
Proof.
  intros H. destruct (dim_station_inr data H) as (out & E & Hn).
  exists out. repeat split; auto.
  destruct (Nat.lt_trichotomy (List.length out) (List.length (rows data)))
    as [L | [L | L]]; [exfalso | exact L | exfalso].
  - pose proof (Hn (List.length out)) as Hi.
    rewrite (proj2 (nth_error_None out _)) in Hi by lia.
    destruct (nth_error (rows data) (List.length out)) eqn:E'; [discriminate|].
    apply nth_error_None in E'. lia.
  - pose proof (Hn (List.length (rows data))) as Hi.
    rewrite (proj2 (nth_error_None (rows data) _)) in Hi by lia.
    apply nth_error_None in Hi. lia.
Qed.

Lemma C6_witness :
  exists out, transform_data.dim_station two_chargers_one_station = inr out /\
    List.length out = List.length (rows two_chargers_one_station) /\
    forall i, nth_error out i =
      option_map
        (fun r => {| DimStation.station_id := Z.of_nat i + 1;
                     DimStation.station_name := Station_name r;
                     DimStation.num_of_charging_stations := Number_of_station r;
                     DimStation.lat := Latitude r;
                     DimStation.long := Longitude r |})
        (nth_error (rows two_chargers_one_station) i).
Proof.
  apply (C6_dim_station_one_row_per_raw_row two_chargers_one_station).
  reflexivity.
Defined.

(** ** The operator dimension *)

(** C5, as stated, fails: [unique] is called without [maintain_order], so
    the distinct values may come back in another order than first seen.
    With the order reversed, "Bolt" is numbered 1 and "Acme" 2. *)
Lemma C5_counterexample :
  exists out,
    transform_data.dim_operator (U := reversed_unique) two_chargers_one_station
      = inr out /\
    map DimOperator.operator_name out = ["Bolt"; "Acme"; "Unknown"] /\
    ~ first_seen_then_sentinel two_chargers_one_station out.
Proof.
  eexists. split; [reflexivity|]. split; [reflexivity|].
  unfold first_seen_then_sentinel. vm_compute. discriminate.
Qed.

(** C5, amended: for every raw batch with the operator column,
    [dim_operator] reduces the operator column to its distinct values, each
    once, in the order [unique] returns them (some arrangement of the
    first-occurrence list), appends the sentinel "Unknown" last, and assigns
    [operator_id] as the 1-based row position in that final order. *)
Theorem C5_dim_operator_positions {U : pl.Unique} (data : DataFrame) :
  has_columns ["Operator"] data = true ->
  exists distinct out,
    transform_data.dim_operator data = inr out /\
    Permutation distinct (distinct_first_seen (map Operator (rows data))) /\
    forall i, nth_error out i =
      option_map
        (fun c => {| DimOperator.operator_name := display_name c;
                     DimOperator.operator_id := Z.of_nat i + 1 |})
        (nth_error (distinct ++ [Some "Unknown"]) i).
Proof.
  intros H.
  exists (pl.unique cell_string_dec (fun v => v) (map Operator (rows data))).
  eexists. split; [apply (dim_operator_inr data H)|].
  split; [apply unique_column_Permutation|].
  intros i. apply operator_table_nth_error.
Qed.

Lemma C5_witness :
  exists distinct out,
    transform_data.dim_operator (U := reversed_unique) two_chargers_one_station
      = inr out /\
    Permutation distinct
      (distinct_first_seen (map Operator (rows two_chargers_one_station))) /\
    forall i, nth_error out i =
      option_map
        (fun c => {| DimOperator.operator_name := display_name c;
                     DimOperator.operator_id := Z.of_nat i + 1 |})
        (nth_error (distinct ++ [Some "Unknown"]) i).
Proof.
  apply (C5_dim_operator_positions (U := reversed_unique) two_chargers_one_station).
  reflexivity.
Defined.

(** C3, as stated, fails: a raw operator value " Unknown" is not "Unknown",
    yet it is trimmed to "Unknown" after the sentinel is appended, and the
    table has two rows of that name. *)
Lemma C3_counterexample :
  exists out,
    transform_data.dim_operator (U := first_seen_unique) padded_unknown = inr out /\
    count_unknown out = 2%nat /\
    ~ one_unknown_unless_raw_unknown padded_unknown out.
Proof.
  eexists. split; [reflexivity|]. split; [reflexivity|].
  unfold one_unknown_unless_raw_unknown. intros H.
  assert (forall r, In r (rows padded_unknown) -> Operator r <> Some "Unknown") as N.
  { intros r [<- | []]. discriminate. }
  specialize (H N). vm_compute in H. discriminate.
Qed.

(** C3, amended: for every raw batch with the operator column, the appended
    sentinel row is the last row of [dim_operator]'s table, is named
    "Unknown", and its [operator_id] is the number of distinct raw operator
    values (nulls counted as one value) plus 1, the largest id assigned; it
    is the only row named "Unknown" unless a raw operator value, once
    trimmed, equals "Unknown". *)
Theorem C3_sentinel_row {U : pl.Unique} (data : DataFrame) :
  has_columns ["Operator"] data = true ->
  exists out,
    transform_data.dim_operator data = inr out /\
    sentinel_row out =
      Some {| DimOperator.operator_name := "Unknown";
              DimOperator.operator_id :=
                Z.of_nat (List.length
                            (distinct_first_seen (map Operator (rows data)))) + 1 |} /\
    (forall d, In d out ->
       1 <= DimOperator.operator_id d <=
       Z.of_nat (List.length (distinct_first_seen (map Operator (rows data)))) + 1) /\
    ((forall r, In r (rows data) -> display_name (Operator r) <> "Unknown") ->
     count_unknown out = 1%nat).
Proof.
  intros H. eexists. split; [apply (dim_operator_inr data H)|].
  set (us := pl.unique cell_string_dec (fun v => v) (map Operator (rows data))).
  assert (List.length us =
          List.length (distinct_first_seen (map Operator (rows data)))) as L
    by (apply Permutation_length, unique_column_Permutation).
  rewrite <- L. split; [apply operator_table_sentinel|]. split.
  - intros d Hd. apply operator_table_In in Hd as (i & c & Hi & ->). simpl.
    apply nth_error_Some_lt in Hi. rewrite length_app in Hi. simpl in Hi. lia.
  - intros N. rewrite count_unknown_names, operator_table_names, map_app.
    rewrite filter_app, length_app.
    replace (filter (fun n => String.eqb n "Unknown") (map display_name us))
      with (@nil string); [reflexivity|].
    symmetry. apply filter_none. intros n Hn.
    apply in_map_iff in Hn as (c & <- & Hc).
    apply String.eqb_neq.
    unfold us in Hc. apply (proj1 (unique_column_In _ c)) in Hc.
    apply in_map_iff in Hc as (r & <- & Hr).
    now apply N.
Qed.

Lemma C3_witness :
  exists out,
    transform_data.dim_operator (U := reversed_unique) two_chargers_one_station
      = inr out /\
    sentinel_row out =
      Some {| DimOperator.operator_name := "Unknown";
              DimOperator.operator_id :=
                Z.of_nat (List.length
                            (distinct_first_seen
                               (map Operator (rows two_chargers_one_station)))) + 1 |} /\
    (forall d, In d out ->
       1 <= DimOperator.operator_id d <=
       Z.of_nat (List.length
                   (distinct_first_seen
                      (map Operator (rows two_chargers_one_station)))) + 1) /\
    ((forall r, In r (rows two_chargers_one_station) ->
                display_name (Operator r) <> "Unknown") ->
     count_unknown out = 1%nat).
Proof.
  apply (C3_sentinel_row (U := reversed_unique) two_chargers_one_station).
  reflexivity.
Defined.

(** C7: for every raw batch whose operator column holds two values that
    differ only in leading or trailing white space, [dim_operator]'s table
    has two rows with different [operator_id] whose [operator_name] is the
    same trimmed string: the values are deduplicated before they are
    trimmed. *)
Theorem C7_trim_after_dedup {U : pl.Unique} (data : DataFrame) (a b : string) :
  has_columns ["Operator"] data = true ->
  In (Some a) (map Operator (rows data)) ->
  In (Some b) (map Operator (rows data)) ->
  a <> b ->
  pl.strip_chars a = pl.strip_chars b ->
  exists out d1 d2,
    transform_data.dim_operator data = inr out /\
    In d1 out /\ In d2 out /\
    DimOperator.operator_id d1 <> DimOperator.operator_id d2 /\
    DimOperator.operator_name d1 = pl.strip_chars a /\
    DimOperator.operator_name d2 = pl.strip_chars a.
Proof.
  intros H Ha Hb Hab Hs.
  set (us := pl.unique cell_string_dec (fun v => v) (map Operator (rows data))).
  apply (proj2 (unique_column_In (U := U) _ _)) in Ha, Hb. fold us in Ha, Hb.
  apply In_nth_error in Ha as (i & Hi), Hb as (j & Hj).
  exists (operator_table (us ++ [Some "Unknown"])).
  exists {| DimOperator.operator_name := display_name (Some a);
            DimOperator.operator_id := Z.of_nat i + 1 |}.
  exists {| DimOperator.operator_name := display_name (Some b);
            DimOperator.operator_id := Z.of_nat j + 1 |}.
  split; [apply (dim_operator_inr data H)|].
  repeat split.
  - apply operator_table_In. exists i, (Some a). split; [|reflexivity].
    rewrite nth_error_app1; [exact Hi|]. now apply nth_error_Some_lt in Hi.
  - apply operator_table_In. exists j, (Some b). split; [|reflexivity].
    rewrite nth_error_app1; [exact Hj|]. now apply nth_error_Some_lt in Hj.
  - simpl. intros E. assert (i = j) by lia. subst j.
    rewrite Hi in Hj. inversion Hj. contradiction.
  - simpl. unfold display_name. simpl. symmetry. exact Hs.
Qed.

Lemma C7_witness :
  exists out d1 d2,
    transform_data.dim_operator (U := first_seen_unique) acme_twice = inr out /\
    In d1 out /\ In d2 out /\
    DimOperator.operator_id d1 <> DimOperator.operator_id d2 /\
    DimOperator.operator_name d1 = pl.strip_chars "Acme" /\
    DimOperator.operator_name d2 = pl.strip_chars "Acme".
Proof.
  apply (C7_trim_after_dedup (U := first_seen_unique) acme_twice "Acme" "Acme ").
  - reflexivity.
  - simpl. auto.
  - simpl. auto.
  - discriminate.
  - reflexivity.
Defined.

(** ** The fact table *)

Lemma fact_ev_charger_inr {U : pl.Unique} (data : DataFrame)
    (dim_operator_table : list DimOperator.row)
    (dim_station_table : list DimStation.row) (u : Z) :
  has_columns required_columns data = true ->
  transform_data.unknown_operator_id dim_operator_table = inr u ->
  transform_data.fact_ev_charger data dim_operator_table dim_station_table =
  inr (pl.sort Fact.charger_id
         (pl.unique cell_Z_dec Fact.charger_id
            (joined_fact_rows dim_operator_table dim_station_table u (rows data)))).
Proof.
  intros H Hu. unfold transform_data.fact_ev_charger.
  rewrite (select_ok ["Operator"; "Station name"] data).
  2:{ revert H. apply has_columns_incl. intros c Hc. simpl in *. tauto. }
  cbn [bind].
  rewrite (select_ok ["ObjId"; "Number of plugs"; "CHAdeMO"; "CCS/SAE";
                      "Tesla(Fast)"] data).
  2:{ revert H. apply has_columns_incl. intros c Hc. simpl in *. tauto. }
  cbn [bind]. rewrite Hu. reflexivity.
Qed.

(** Whenever the fact builder returns, whatever the dimension tables, it
    returns the sorted, deduplicated joined rows. *)
Lemma fact_ev_charger_inv {U : pl.Unique} (data : DataFrame)
    (dim_operator_table : list DimOperator.row)
    (dim_station_table : list DimStation.row) (fact : list Fact.row) :
  transform_data.fact_ev_charger data dim_operator_table dim_station_table
    = inr fact ->
  exists u,
    transform_data.unknown_operator_id dim_operator_table = inr u /\
    fact = pl.sort Fact.charger_id
             (pl.unique cell_Z_dec Fact.charger_id
                (joined_fact_rows dim_operator_table dim_station_table u
                   (rows data))).
Proof.
  unfold transform_data.fact_ev_charger.
  destruct (select ["Operator"; "Station name"] data) as [e | left] eqn:E1;
    [discriminate|].
  apply select_inr in E1 as [-> _]. cbn [bind].
  destruct (select _ data) as [e | ign]; [discriminate|]. cbn [bind].
  destruct (transform_data.unknown_operator_id dim_operator_table) as [e | u];
    [discriminate|].
  cbn [bind ret]. intros E. inversion E. now exists u.
Qed.

(** A fact row before [unique]: a raw row, the operator row and the station
    row it was joined with (or none), the seven columns selected and a null
    operator id filled. *)
Lemma joined_fact_rows_In (dop : list DimOperator.row) (dst : list DimStation.row)
    (u : Z) (rs : list RawRow) (f : Fact.row) :
  In f (joined_fact_rows dop dst u rs) <->
  exists r op st,
    In r rs /\
    joined_with Operator (fun d => Some (DimOperator.operator_name d)) dop r op /\
    joined_with (fun j : RawRow * option DimOperator.row => Station_name (fst j))
      DimStation.station_name dst (r, op) st /\
    f = transform_data.fill_operator_id u (transform_data.selected_row (r, op, st)).
Proof.
  unfold joined_fact_rows. rewrite map_map, in_map_iff. split.
  - intros ([[r op] st] & <- & Hin).
    apply join_left_In in Hin as [Hin Hst].
    apply join_left_In in Hin as [Hr Hop].
    exists r, op, st. auto.
  - intros (r & op & st & Hr & Hop & Hst & ->).
    exists (r, op, st). split; [reflexivity|].
    apply join_left_In. split; [|exact Hst].
    apply join_left_In. auto.
Qed.

Lemma joined_fact_rows_of (dop : list DimOperator.row) (dst : list DimStation.row)
    (u : Z) (rs : list RawRow) (f : Fact.row) :
  In f (joined_fact_rows dop dst u rs) <->
  exists r, In r rs /\ In f (fact_rows_of dop dst u r).
Proof.
  unfold fact_rows_of. rewrite joined_fact_rows_In. split.
  - intros (r & op & st & Hr & Hop & Hst & ->). exists r. split; [exact Hr|].
    apply joined_fact_rows_In. exists r, op, st. simpl. auto.
  - intros (r & Hr & Hf).
    apply joined_fact_rows_In in Hf as (r' & op & st & [<- | []] & Hop & Hst & ->).
    exists r, op, st. auto.
Qed.

(** What a raw row's fact rows hold. *)
Lemma fact_rows_of_In (dop : list DimOperator.row) (dst : list DimStation.row)
    (u : Z) (r : RawRow) (f : Fact.row) :
  In f (fact_rows_of dop dst u r) ->
  derived_from r f /\
  ((exists d, In d dop /\ Operator r = Some (DimOperator.operator_name d) /\
              Fact.operator_id f = Some (DimOperator.operator_id d)) \/
   ((forall d, In d dop -> Operator r <> Some (DimOperator.operator_name d)) /\
    Fact.operator_id f = Some u)).
Proof.
  intros Hf.
  apply joined_fact_rows_In in Hf as (r' & op & st & [<- | []] & Hop & Hst & ->).
  split; [repeat split|].
  destruct op as [d|]; simpl in Hop.
  - left. exists d. destruct Hop as [Hd Hk].
    apply key_matches_eq in Hk as (s & Hs & Hn). inversion Hn; subst.
    repeat split; auto.
  - right. split; [|reflexivity].
    intros d Hd E. specialize (Hop d Hd). rewrite E in Hop. simpl in Hop.
    now rewrite String.eqb_refl in Hop.
Qed.

(** Every raw row has at least one fact row before [unique]. *)
Lemma fact_rows_of_nonempty (dop : list DimOperator.row) (dst : list DimStation.row)
    (u : Z) (r : RawRow) :
  exists f, In f (fact_rows_of dop dst u r) /\ Fact.charger_id f = ObjId r.
Proof.
  destruct (join_left_total Operator
              (fun d => Some (DimOperator.operator_name d)) dop r) as (op & Hop).
  destruct (join_left_total
              (fun j : RawRow * option DimOperator.row => Station_name (fst j))
              DimStation.station_name dst (r, op)) as (st & Hst).
  exists (transform_data.fill_operator_id u (transform_data.selected_row (r, op, st))).
  split; [|reflexivity].
  apply joined_fact_rows_In. exists r, op, st. simpl. auto.
Qed.

Section FactTable.
Context {U : pl.Unique}.
Variables (dop : list DimOperator.row) (dst : list DimStation.row) (u : Z).
Variable rs : list RawRow.

Let fact : list Fact.row :=
  pl.sort Fact.charger_id
    (pl.unique cell_Z_dec Fact.charger_id (joined_fact_rows dop dst u rs)).

(** Every row of the fact table is one of the fact rows of some raw row. *)
Lemma fact_row_provenance (f : Fact.row) :
  In f fact -> exists r, In r rs /\ In f (fact_rows_of dop dst u r).
Proof.
  intros Hf. unfold fact in Hf.
  apply (Permutation_in _ (sort_Permutation _ _)) in Hf.
  apply pl.unique_In in Hf. now apply joined_fact_rows_of in Hf.
Qed.

(** The charger ids of the fact table are those of the raw rows. *)
Lemma fact_charger_ids (c : option Z) :
  In c (map Fact.charger_id fact) <-> In c (map ObjId rs).
Proof.
  split.
  - intros Hc. apply in_map_iff in Hc as (f & <- & Hf).
    apply fact_row_provenance in Hf as (r & Hr & Hf).
    apply fact_rows_of_In in Hf as [[-> _] _]. now apply in_map.
  - intros Hc. apply in_map_iff in Hc as (r & <- & Hr).
    destruct (fact_rows_of_nonempty dop dst u r) as (f & Hf & <-).
    assert (In f (joined_fact_rows dop dst u rs)) as Hin
      by (apply joined_fact_rows_of; eauto).
    apply (pl.unique_complete _ _ cell_Z_dec Fact.charger_id) in Hin.
    eapply Permutation_in; [|exact Hin].
    apply Permutation_map. symmetry. apply sort_Permutation.
Qed.

Lemma fact_charger_ids_NoDup : NoDup (map Fact.charger_id fact).
Proof.
  unfold fact.
  eapply Permutation_NoDup.
  - apply Permutation_map. symmetry. apply sort_Permutation.
  - apply pl.unique_NoDup.
Qed.

Lemma fact_charger_ids_sorted : StronglySorted charger_le (map Fact.charger_id fact).
Proof.
  unfold fact.
  generalize (sort_sorted Fact.charger_id
                (pl.unique cell_Z_dec Fact.charger_id
                   (joined_fact_rows dop dst u rs))).
  generalize (pl.sort Fact.charger_id
                (pl.unique cell_Z_dec Fact.charger_id
                   (joined_fact_rows dop dst u rs))).
  intros l S. induction S as [|a l S IH F]; simpl; constructor; auto.
  rewrite Forall_forall in *. intros c Hc.
  apply in_map_iff in Hc as (b & <- & Hb). now apply F.
Qed.

End FactTable.

(** Over a frame with all the required columns the three builders return:
    the lookup of the "Unknown" row cannot fail on the operator table built
    from the same frame. *)
Lemma pipeline_runs {U : pl.Unique} (data : DataFrame) :
  has_columns required_columns data = true ->
  exists dst s,
    let dop := operator_table
                 (pl.unique cell_string_dec (fun v => v) (map Operator (rows data))
                  ++ [Some "Unknown"]) in
    transform_data.dim_operator data = inr dop /\
    transform_data.dim_station data = inr dst /\
    first_unknown dop = Some s /\ In s dop /\
    DimOperator.operator_name s = "Unknown" /\
    transform_data.fact_ev_charger data dop dst =
    inr (pl.sort Fact.charger_id
           (pl.unique cell_Z_dec Fact.charger_id
              (joined_fact_rows dop dst (DimOperator.operator_id s) (rows data)))).
Proof.
  intros H.
  assert (has_columns ["Operator"] data = true) as Hop.
  { revert H. apply has_columns_incl. intros c Hc. simpl in *. tauto. }
  assert (has_columns station_columns data = true) as Hst.
  { revert H. apply has_columns_incl. intros c Hc. simpl in *. tauto. }
  destruct (dim_station_inr data Hst) as (dst & Edst & _).
  destruct (first_unknown_exists
              (pl.unique cell_string_dec (fun v => v) (map Operator (rows data))))
    as (s & Es & Hs & Hn).
  exists dst, s. cbv zeta.
  split; [apply (dim_operator_inr data Hop)|].
  split; [exact Edst|]. split; [exact Es|]. split; [exact Hs|].
  split; [exact Hn|].
  apply fact_ev_charger_inr; [exact H|].
  rewrite unknown_operator_id_first, Es. reflexivity.
Qed.

(** C1, as stated, fails: the raw operator " Unknown" matches no dimension
    row (the names are trimmed, the raw value is not), and the fact row is
    filled with the id of the first row named "Unknown", which is 1, the row
    made from " Unknown" itself; the appended sentinel row has id 2. *)
Lemma C1_counterexample :
  exists dop dst fact r f,
    transform_data.dim_operator (U := first_seen_unique) padded_unknown = inr dop /\
    transform_data.dim_station padded_unknown = inr dst /\
    transform_data.fact_ev_charger (U := first_seen_unique) padded_unknown dop dst
      = inr fact /\
    In r (rows padded_unknown) /\ In f fact /\ derived_from r f /\
    Fact.operator_id f = Some 1 /\
    sentinel_row dop = Some {| DimOperator.operator_name := "Unknown";
                               DimOperator.operator_id := 2 |} /\
    ~ resolves_to_match_or_sentinel dop r f.
Proof.
  do 3 eexists. exists (raw_row 30 (Some " Unknown") (Some "Station A")).
  eexists.
  split; [reflexivity|]. split; [reflexivity|]. split; [reflexivity|].
  split; [now left|]. split; [now left|].
  split; [repeat split|]. split; [reflexivity|]. split; [reflexivity|].
  intros (id & Hid & [(d & Hd & Hop & _) | (_ & s & Hs & Hs')]).
  - simpl in Hd. destruct Hd as [<- | [<- | []]]; discriminate.
  - vm_compute in Hs. inversion Hs; subst s.
    vm_compute in Hid. inversion Hid; subst id. discriminate.
Qed.

(** C1, amended: for every raw batch with the required columns, and the
    dimension tables built from it, [fact_ev_charger] returns a table in
    which every row has a non-null [operator_id]: it is the id of a
    dimension row whose name equals the operator name of the raw row the
    fact row comes from, when there is one, and otherwise the id of the
    first dimension row named "Unknown".  That row is the appended sentinel
    when no raw operator value trims to "Unknown". *)
Theorem C1_fact_operator_id_resolution {U : pl.Unique} (data : DataFrame) :
  has_columns required_columns data = true ->
  exists dop dst fact,
    transform_data.dim_operator data = inr dop /\
    transform_data.dim_station data = inr dst /\
    transform_data.fact_ev_charger data dop dst = inr fact /\
    (forall f, In f fact ->
       exists r, In r (rows data) /\ derived_from r f /\
                 resolves_to_match_or_first_unknown dop r f) /\
    ((forall r, In r (rows data) -> display_name (Operator r) <> "Unknown") ->
     first_unknown dop = sentinel_row dop).
Proof.
  intros H. destruct (pipeline_runs data H) as (dst & s & P). cbv zeta in P.
  destruct P as (Edop & Edst & Es & Hs & Hn & Efact).
  eexists. exists dst. eexists.
  split; [exact Edop|]. split; [exact Edst|]. split; [exact Efact|]. split.
  - intros f Hf. apply fact_row_provenance in Hf as (r & Hr & Hf).
    exists r. split; [exact Hr|].
    apply fact_rows_of_In in Hf as [Hd [(d & Hd1 & Hd2 & Hd3) | (Hno & Hid)]].
    + split; [exact Hd|]. exists (DimOperator.operator_id d).
      split; [exact Hd3|]. left. exists d. auto.
    + split; [exact Hd|]. exists (DimOperator.operator_id s).
      split; [exact Hid|]. right. split; [exact Hno|]. exists s. auto.
  - intros N. apply first_unknown_sentinel. intros c Hc.
    apply (proj1 (unique_column_In _ c)) in Hc.
    apply in_map_iff in Hc as (r & <- & Hr).
    now apply N.
Qed.

Lemma C1_witness :
  exists dop dst fact,
    transform_data.dim_operator (U := first_seen_unique) acme_twice = inr dop /\
    transform_data.dim_station acme_twice = inr dst /\
    transform_data.fact_ev_charger (U := first_seen_unique) acme_twice dop dst
      = inr fact /\
    (forall f, In f fact ->
       exists r, In r (rows acme_twice) /\ derived_from r f /\
                 resolves_to_match_or_first_unknown dop r f) /\
    ((forall r, In r (rows acme_twice) -> display_name (Operator r) <> "Unknown") ->
     first_unknown dop = sentinel_row dop).
Proof.
  apply (C1_fact_operator_id_resolution (U := first_seen_unique) acme_twice).
  reflexivity.
Defined.

(** C2: for every raw batch with the required columns, the fact table
    returned by [fact_ev_charger] has no two rows with the same
    [charger_id], and its rows are in ascending order of [charger_id] (a
    null id, if any, first).  Over the dimension tables built from the
    batch the builder does return; and whatever dimension tables it is
    given, a table it returns has both properties. *)
Theorem C2_fact_unique_sorted {U : pl.Unique} (data : DataFrame) :
  has_columns required_columns data = true ->
  (exists dop dst fact,
     transform_data.dim_operator data = inr dop /\
     transform_data.dim_station data = inr dst /\
     transform_data.fact_ev_charger data dop dst = inr fact /\
     NoDup (map Fact.charger_id fact) /\
     StronglySorted charger_le (map Fact.charger_id fact)) /\
  (forall dop dst fact,
     transform_data.fact_ev_charger data dop dst = inr fact ->
     NoDup (map Fact.charger_id fact) /\
     StronglySorted charger_le (map Fact.charger_id fact)).
Proof.
  intros H. split.
  - destruct (pipeline_runs data H) as (dst & s & P). cbv zeta in P.
    destruct P as (Edop & Edst & Es & Hs & Hn & Efact).
    eexists. exists dst. eexists.
    split; [exact Edop|]. split; [exact Edst|]. split; [exact Efact|]. split.
    + apply fact_charger_ids_NoDup.
    + apply fact_charger_ids_sorted.
  - intros dop dst fact E.
    apply fact_ev_charger_inv in E as (u & _ & ->). split.
    + apply fact_charger_ids_NoDup.
    + apply fact_charger_ids_sorted.
Qed.

Lemma C2_witness :
  (exists dop dst fact,
     transform_data.dim_operator (U := reversed_unique) two_chargers_one_station
       = inr dop /\
     transform_data.dim_station two_chargers_one_station = inr dst /\
     transform_data.fact_ev_charger (U := reversed_unique)
       two_chargers_one_station dop dst = inr fact /\
     NoDup (map Fact.charger_id fact) /\
     StronglySorted charger_le (map Fact.charger_id fact)) /\
  (forall dop dst fact,
     transform_data.fact_ev_charger (U := reversed_unique)
       two_chargers_one_station dop dst = inr fact ->
     NoDup (map Fact.charger_id fact) /\
     StronglySorted charger_le (map Fact.charger_id fact)).
Proof.
  apply (C2_fact_unique_sorted (U := reversed_unique) two_chargers_one_station).
  reflexivity.
Defined.

(** No dimension name equals an operator value with white space at an end:
    the names were trimmed, the raw join key is not. *)
Lemma padded_operator_unmatched (cells : list (option string)) (name : string)
    (d : DimOperator.row) :
  outer_whitespace name = true ->
  In d (operator_table cells) ->
  Some name <> Some (DimOperator.operator_name d).
Proof.
  intros Hw Hd E. apply operator_table_In in Hd as (i & c & _ & ->).
  simpl in E. inversion E; subst name.
  rewrite display_name_clean in Hw. discriminate.
Qed.

(** C10, as stated, fails: the raw operator " Unknown" has a leading space;
    its own dimension row is row 1, named "Unknown" once trimmed, and that
    is the row the fact builder looks up: the fact row gets id 1, its own
    row's id, while the appended sentinel has id 2. *)
Lemma C10_counterexample :
  exists dop dst fact r f,
    transform_data.dim_operator (U := first_seen_unique) padded_unknown = inr dop /\
    transform_data.dim_station padded_unknown = inr dst /\
    transform_data.fact_ev_charger (U := first_seen_unique) padded_unknown dop dst
      = inr fact /\
    In r (rows padded_unknown) /\ Operator r = Some " Unknown" /\
    outer_whitespace " Unknown" = true /\
    In f fact /\ derived_from r f /\
    Fact.operator_id f = Some 1 /\
    nth_error dop 0 = Some {| DimOperator.operator_name := display_name (Operator r);
                              DimOperator.operator_id := 1 |} /\
    sentinel_row dop = Some {| DimOperator.operator_name := "Unknown";
                               DimOperator.operator_id := 2 |} /\
    ~ receives_sentinel_not_own dop r f.
Proof.
  do 3 eexists. exists (raw_row 30 (Some " Unknown") (Some "Station A")).
  eexists.
  split; [reflexivity|]. split; [reflexivity|]. split; [reflexivity|].
  split; [now left|]. split; [reflexivity|]. split; [reflexivity|].
  split; [now left|]. split; [repeat split|]. split; [reflexivity|].
  split; [reflexivity|]. split; [reflexivity|].
  intros [(s & Hs & Hid) _].
  vm_compute in Hs. inversion Hs; subst s.
  vm_compute in Hid. discriminate.
Qed.

(** C10, amended: for every raw batch with the required columns, a raw row
    whose operator name has leading or trailing white space matches no
    dimension row, and every fact row joined from it carries the id of the
    first dimension row named "Unknown".  When no raw operator value trims
    to "Unknown", that row is the appended sentinel and its id differs from
    the id of the raw row's own dimension row. *)
Theorem C10_padded_operator_gets_unknown_id {U : pl.Unique} (data : DataFrame) :
  has_columns required_columns data = true ->
  exists dop dst fact u,
    transform_data.dim_operator data = inr dop /\
    transform_data.dim_station data = inr dst /\
    transform_data.fact_ev_charger data dop dst = inr fact /\
    (exists s, first_unknown dop = Some s /\ DimOperator.operator_id s = u) /\
    (forall f, In f fact ->
       exists r, In r (rows data) /\ In f (fact_rows_of dop dst u r)) /\
    forall r name,
      In r (rows data) -> Operator r = Some name ->
      outer_whitespace name = true ->
      (forall d, In d dop -> Operator r <> Some (DimOperator.operator_name d)) /\
      (forall f, In f (fact_rows_of dop dst u r) -> Fact.operator_id f = Some u) /\
      ((forall r', In r' (rows data) -> display_name (Operator r') <> "Unknown") ->
       sentinel_row dop = Some {| DimOperator.operator_name := "Unknown";
                                  DimOperator.operator_id := u |} /\
       forall d, In d dop ->
         DimOperator.operator_name d = display_name (Operator r) ->
         DimOperator.operator_id d <> u).
Proof.
  intros H. destruct (pipeline_runs data H) as (dst & s & P). cbv zeta in P.
  destruct P as (Edop & Edst & Es & Hs & Hn & Efact).
  set (us := pl.unique cell_string_dec (fun v => v) (map Operator (rows data))) in *.
  exists (operator_table (us ++ [Some "Unknown"])), dst.
  eexists. exists (DimOperator.operator_id s).
  split; [exact Edop|]. split; [exact Edst|]. split; [exact Efact|].
  split; [now exists s|]. split.
  - intros f Hf. now apply fact_row_provenance in Hf.
  - intros r name Hr Hop Hw.
    assert (forall d, In d (operator_table (us ++ [Some "Unknown"])) ->
                      Operator r <> Some (DimOperator.operator_name d)) as Hno.
    { intros d Hd. rewrite Hop. now apply padded_operator_unmatched with (cells := us ++ [Some "Unknown"]). }
    split; [exact Hno|]. split.
    + intros f Hf.
      apply fact_rows_of_In in Hf as [_ [(d & Hd1 & Hd2 & _) | (_ & Hid)]].
      * now apply Hno in Hd1.
      * exact Hid.
    + intros N.
      assert (forall c, In c us -> display_name c <> "Unknown") as N'.
      { intros c Hc. unfold us in Hc.
        apply (proj1 (unique_column_In _ c)) in Hc.
        apply in_map_iff in Hc as (r' & <- & Hr'). now apply N. }
      pose proof (first_unknown_sentinel us N') as Efs.
      rewrite Es, operator_table_sentinel in Efs.
      inversion Efs; subst s. cbn [DimOperator.operator_id].
      split; [apply operator_table_sentinel|].
      intros d Hd Hname Hid.
      apply operator_table_In in Hd as (i & c & Hi & ->).
      cbn [DimOperator.operator_id DimOperator.operator_name] in *.
      assert (i = List.length us) as -> by lia.
      rewrite nth_error_app2, Nat.sub_diag in Hi by lia.
      inversion Hi; subst c.
      apply (N r Hr). symmetry. exact Hname.
Qed.

Lemma C10_witness :
  exists dop dst fact u,
    transform_data.dim_operator (U := first_seen_unique) acme_twice = inr dop /\
    transform_data.dim_station acme_twice = inr dst /\
    transform_data.fact_ev_charger (U := first_seen_unique) acme_twice dop dst
      = inr fact /\
    (exists s, first_unknown dop = Some s /\ DimOperator.operator_id s = u) /\
    (forall f, In f fact ->
       exists r, In r (rows acme_twice) /\ In f (fact_rows_of dop dst u r)) /\
    forall r name,
      In r (rows acme_twice) -> Operator r = Some name ->
      outer_whitespace name = true ->
      (forall d, In d dop -> Operator r <> Some (DimOperator.operator_name d)) /\
      (forall f, In f (fact_rows_of dop dst u r) -> Fact.operator_id f = Some u) /\
      ((forall r', In r' (rows acme_twice) ->
                   display_name (Operator r') <> "Unknown") ->
       sentinel_row dop = Some {| DimOperator.operator_name := "Unknown";
                                  DimOperator.operator_id := u |} /\
       forall d, In d dop ->
         DimOperator.operator_name d = display_name (Operator r) ->
         DimOperator.operator_id d <> u).
Proof.
  apply (C10_padded_operator_gets_unknown_id (U := first_seen_unique) acme_twice).
  reflexivity.
Defined.

(** ** Whole runs *)

Lemma read_file_filter_other (p q : string) (fs : Files) :
  p <> q ->
  read_file q (filter (fun e => negb (String.eqb (fst e) p)) fs) = read_file q fs.
Proof.
  intros N. induction fs as [|[p' t] fs IH]; simpl; [reflexivity|].
  destruct (String.eqb p' p) eqn:E; simpl.
  - apply String.eqb_eq in E. subst p'.
    apply String.eqb_neq in N. now rewrite N.
  - now rewrite IH.
Qed.

Lemma read_file_write_other (p q : string) (t : Table) (fs : Files) :
  p <> q -> read_file q (write_csv p t fs) = read_file q fs.
Proof.
  intros N. unfold write_csv. simpl.
  rewrite (proj2 (String.eqb_neq p q) N). now apply read_file_filter_other.
Qed.

(** A run whose three builders return writes the three files. *)
Lemma build_tables_completes {U : pl.Unique} (data : DataFrame) (fs : Files)
    (dst : list DimStation.row) (dop : list DimOperator.row) (fact : list Fact.row) :
  transform_data.dim_station data = inr dst ->
  transform_data.dim_operator data = inr dop ->
  transform_data.fact_ev_charger data dop dst = inr fact ->
  build_table_files.build_tables data fs =
  (write_csv "data_file_output/fact_ev_charger.csv" (FactTable fact)
     (write_csv "data_file_output/dim_operator.csv" (OperatorTable dop)
        (write_csv "data_file_output/dim_station.csv" (StationTable dst) fs)),
   inr tt).
Proof.
  intros Est Eop Ef. unfold build_table_files.build_tables.
  rewrite Est, Eop. cbn [build_table_files.build_dim_station
                          build_table_files.build_dim_operator ret].
  unfold build_table_files.build_fact_ev_charger. now rewrite Ef.
Qed.

(** C4, as stated, fails: [unique] does not fix the order of the distinct
    operator values, so two runs over the same frame may number the
    operators differently and write different operator files. *)
Lemma C4_counterexample :
  snd (build_table_files.build_tables (U := first_seen_unique)
         two_chargers_one_station []) = inr tt /\
  snd (build_table_files.build_tables (U := reversed_unique)
         two_chargers_one_station []) = inr tt /\
  read_file "data_file_output/dim_operator.csv"
    (fst (build_table_files.build_tables (U := first_seen_unique)
            two_chargers_one_station [])) <>
  read_file "data_file_output/dim_operator.csv"
    (fst (build_table_files.build_tables (U := reversed_unique)
            two_chargers_one_station [])).
Proof.
  split; [reflexivity|]. split; [reflexivity|].
  vm_compute. discriminate.
Qed.

(** C4, amended: two runs of the three builders over the same raw batch
    (with the required columns), whatever [unique] does in each, both
    complete and write: the same station table; operator tables with the
    same names up to the order of the rows, the same ids in the same
    positions and the same sentinel row last; fact tables with the same
    [charger_id] column.  Which operator name gets which id, and with it the
    [operator_id] of a fact row, is not fixed across runs. *)
Theorem C4_runs_agree (U1 U2 : pl.Unique) (data : DataFrame) (fs : Files) :
  has_columns required_columns data = true ->
  exists dst dop1 dop2 fact1 fact2,
    build_table_files.build_tables (U := U1) data fs =
      (write_csv "data_file_output/fact_ev_charger.csv" (FactTable fact1)
         (write_csv "data_file_output/dim_operator.csv" (OperatorTable dop1)
            (write_csv "data_file_output/dim_station.csv" (StationTable dst) fs)),
       inr tt) /\
    build_table_files.build_tables (U := U2) data fs =
      (write_csv "data_file_output/fact_ev_charger.csv" (FactTable fact2)
         (write_csv "data_file_output/dim_operator.csv" (OperatorTable dop2)
            (write_csv "data_file_output/dim_station.csv" (StationTable dst) fs)),
       inr tt) /\
    Permutation (map DimOperator.operator_name dop1)
                (map DimOperator.operator_name dop2) /\
    map DimOperator.operator_id dop1 = map DimOperator.operator_id dop2 /\
    sentinel_row dop1 = sentinel_row dop2 /\
    map Fact.charger_id fact1 = map Fact.charger_id fact2.
Proof.
  intros H.
  destruct (pipeline_runs (U := U1) data H) as (dst1 & s1 & P1).
  destruct (pipeline_runs (U := U2) data H) as (dst2 & s2 & P2).
  cbv zeta in P1, P2.
  destruct P1 as (Edop1 & Edst1 & _ & _ & _ & Efact1).
  destruct P2 as (Edop2 & Edst2 & _ & _ & _ & Efact2).
  assert (dst2 = dst1) as -> by congruence.
  set (us1 := pl.unique (Unique := U1) cell_string_dec (fun v => v)
                (map Operator (rows data))) in *.
  set (us2 := pl.unique (Unique := U2) cell_string_dec (fun v => v)
                (map Operator (rows data))) in *.
  assert (Permutation us1 us2) as Hp.
  { etransitivity; [apply unique_column_Permutation|].
    symmetry. apply unique_column_Permutation. }
  exists dst1. do 4 eexists.
  split; [exact (build_tables_completes data fs _ _ _ Edst1 Edop1 Efact1)|].
  split; [exact (build_tables_completes data fs _ _ _ Edst2 Edop2 Efact2)|].
  split; [|split; [|split]].
  - rewrite !operator_table_names. apply Permutation_map.
    now apply Permutation_app_tail.
  - rewrite !operator_table_ids. unfold pl.height.
    now rewrite !length_app, (Permutation_length Hp).
  - rewrite !operator_table_sentinel. now rewrite (Permutation_length Hp).
  - apply sorted_NoDup_unique.
    + apply fact_charger_ids_sorted.
    + apply fact_charger_ids_sorted.
    + apply fact_charger_ids_NoDup.
    + apply fact_charger_ids_NoDup.
    + intros c. now rewrite !fact_charger_ids.
Qed.

Lemma C4_witness :
  exists dst dop1 dop2 fact1 fact2,
    build_table_files.build_tables (U := first_seen_unique)
        two_chargers_one_station [] =
      (write_csv "data_file_output/fact_ev_charger.csv" (FactTable fact1)
         (write_csv "data_file_output/dim_operator.csv" (OperatorTable dop1)
            (write_csv "data_file_output/dim_station.csv" (StationTable dst) [])),
       inr tt) /\
    build_table_files.build_tables (U := reversed_unique)
        two_chargers_one_station [] =
      (write_csv "data_file_output/fact_ev_charger.csv" (FactTable fact2)
         (write_csv "data_file_output/dim_operator.csv" (OperatorTable dop2)
            (write_csv "data_file_output/dim_station.csv" (StationTable dst) [])),
       inr tt) /\
    Permutation (map DimOperator.operator_name dop1)
                (map DimOperator.operator_name dop2) /\
    map DimOperator.operator_id dop1 = map DimOperator.operator_id dop2 /\
    sentinel_row dop1 = sentinel_row dop2 /\
    map Fact.charger_id fact1 = map Fact.charger_id fact2.
Proof.
  apply (C4_runs_agree first_seen_unique reversed_unique
           two_chargers_one_station []).
  reflexivity.
Defined.

(** C8, as stated, fails: over a frame that has the station and operator
    columns but no "ObjId", both dimension files are written before the
    fact builder raises, and they stay. *)
Lemma C8_counterexample :
  exists fs' dst dop,
    build_table_files.build_tables (U := first_seen_unique) no_ObjId [] =
      (fs', inl (ColumnNotFoundError "ObjId")) /\
    read_file "data_file_output/dim_station.csv" fs' = Some (StationTable dst) /\
    read_file "data_file_output/dim_operator.csv" fs' = Some (OperatorTable dop) /\
    ~ no_partial_output fs'.
Proof.
  do 3 eexists. split; [reflexivity|]. split; [reflexivity|].
  split; [reflexivity|].
  intros N. specialize (N "data_file_output/dim_station.csv"). discriminate.
Qed.

(** C8, amended: a run of [build_tables] that fails in a dimension builder
    writes no file; a run that fails in the fact builder has written the two
    dimension files and leaves them, and only the fact file is not
    written. *)
Theorem C8_failed_run_output {U : pl.Unique} (data : DataFrame)
    (fs fs' : Files) (e : exn) :
  build_table_files.build_tables data fs = (fs', inl e) ->
  ((transform_data.dim_station data = inl e \/
    transform_data.dim_operator data = inl e) /\ fs' = fs) \/
  (exists dst dop,
     transform_data.dim_station data = inr dst /\
     transform_data.dim_operator data = inr dop /\
     transform_data.fact_ev_charger data dop dst = inl e /\
     fs' = write_csv "data_file_output/dim_operator.csv" (OperatorTable dop)
             (write_csv "data_file_output/dim_station.csv" (StationTable dst) fs) /\
     read_file "data_file_output/fact_ev_charger.csv" fs' =
     read_file "data_file_output/fact_ev_charger.csv" fs).
Proof.
  unfold build_table_files.build_tables.
  destruct (transform_data.dim_station data) as [e1 | dst] eqn:Est.
  - intros E. inversion E; subst. left. auto.
  - destruct (transform_data.dim_operator data) as [e2 | dop] eqn:Eop.
    + intros E. inversion E; subst. left. auto.
    + cbn [build_table_files.build_dim_station
           build_table_files.build_dim_operator ret].
      unfold build_table_files.build_fact_ev_charger.
      destruct (transform_data.fact_ev_charger data dop dst) as [e3 | fact] eqn:Ef.
      * intros E. inversion E; subst. right. exists dst, dop.
        repeat split; auto.
        rewrite !read_file_write_other by discriminate. reflexivity.
      * intros E. inversion E.
Qed.

Lemma C8_witness :
  ((transform_data.dim_station no_ObjId = inl (ColumnNotFoundError "ObjId") \/
    transform_data.dim_operator (U := first_seen_unique) no_ObjId
      = inl (ColumnNotFoundError "ObjId")) /\
   fst (build_table_files.build_tables (U := first_seen_unique) no_ObjId []) = []) \/
  (exists dst dop,
     transform_data.dim_station no_ObjId = inr dst /\
     transform_data.dim_operator (U := first_seen_unique) no_ObjId = inr dop /\
     transform_data.fact_ev_charger (U := first_seen_unique) no_ObjId dop dst
       = inl (ColumnNotFoundError "ObjId") /\
     fst (build_table_files.build_tables (U := first_seen_unique) no_ObjId []) =
       write_csv "data_file_output/dim_operator.csv" (OperatorTable dop)
         (write_csv "data_file_output/dim_station.csv" (StationTable dst) []) /\
     read_file "data_file_output/fact_ev_charger.csv"
       (fst (build_table_files.build_tables (U := first_seen_unique) no_ObjId [])) =
     read_file "data_file_output/fact_ev_charger.csv" []).
Proof.
  apply (C8_failed_run_output (U := first_seen_unique) no_ObjId []
           (fst (build_table_files.build_tables (U := first_seen_unique) no_ObjId []))
           (ColumnNotFoundError "ObjId")).
  reflexivity.
Defined.

(** C9: a frame whose header lacks "Station name" makes [dim_station] raise
    [ColumnNotFoundError]; [main] catches [FileNotFoundError] and
    [SchemaError] only, so the error leaves [main] and no diagnostic is
    printed. *)
Theorem C9_missing_column_unhandled :
  main (U := first_seen_unique) (Some no_Station_name) [] =
  ([], Unhandled (ColumnNotFoundError "Station name")).
Proof. reflexivity. Qed.


(** The errors [main] does catch end in a printed diagnostic: a missing
    input file is reported. *)
Lemma main_missing_file {U : pl.Unique} (fs : Files) :
  main None fs = (fs, Reported FileNotFoundError).
Proof. reflexivity. Qed.

(** ** The scenarios of the specification, run *)

Example scenario_acme_and_null_dimensions :
  transform_data.dim_operator (U := first_seen_unique) acme_and_null =
    inr [ {| DimOperator.operator_name := "Acme"; DimOperator.operator_id := 1 |};
          {| DimOperator.operator_name := "None"; DimOperator.operator_id := 2 |};
          {| DimOperator.operator_name := "Unknown"; DimOperator.operator_id := 3 |} ] /\
  option_map (map DimStation.station_id)
    (match transform_data.dim_station acme_and_null with
     | inr t => Some t
     | inl _ => None
     end) = Some [1; 2].
Proof. split; reflexivity. Qed.

Example scenario_acme_and_null_fact :
  exists dop dst fact,
    transform_data.dim_operator (U := first_seen_unique) acme_and_null = inr dop /\
    transform_data.dim_station acme_and_null = inr dst /\
    transform_data.fact_ev_charger (U := first_seen_unique) acme_and_null dop dst
      = inr fact /\
    map Fact.charger_id fact = [Some 1; Some 2] /\
    map Fact.operator_id fact = [Some 1; Some 3].
Proof. do 3 eexists. repeat split; reflexivity. Qed.

(** The empty batch: no station row, no fact row, the sentinel alone with
    id 1. *)
Example scenario_empty_batch :
  transform_data.dim_station (frame []) = inr [] /\
  transform_data.dim_operator (U := first_seen_unique) (frame []) =
    inr [ {| DimOperator.operator_name := "Unknown"; DimOperator.operator_id := 1 |} ] /\
  transform_data.fact_ev_charger (U := first_seen_unique) (frame [])
    [ {| DimOperator.operator_name := "Unknown"; DimOperator.operator_id := 1 |} ] []
    = inr [].
Proof. repeat split; reflexivity. Qed.

(** "Acme" and "Acme ": two rows named "Acme"; the raw "Acme" matches both,
    the raw "Acme " matches none and gets the id of "Unknown". *)
Example scenario_acme_twice :
  transform_data.dim_operator (U := first_seen_unique) acme_twice =
    inr [ {| DimOperator.operator_name := "Acme"; DimOperator.operator_id := 1 |};
          {| DimOperator.operator_name := "Acme"; DimOperator.operator_id := 2 |};
          {| DimOperator.operator_name := "Unknown"; DimOperator.operator_id := 3 |} ] /\
  exists dst fact,
    transform_data.dim_station acme_twice = inr dst /\
    transform_data.fact_ev_charger (U := first_seen_unique) acme_twice
      (operator_table [Some "Acme"; Some "Acme "; Some "Unknown"]) dst = inr fact /\
    map Fact.charger_id fact = [Some 20; Some 21] /\
    map Fact.operator_id fact = [Some 1; Some 3].
Proof. split; [reflexivity|]. do 2 eexists. repeat split; reflexivity. Qed.

(** ** Further properties of the builders *)

(** *** Trimming *)

Lemma trim_start_fixed (l : list ascii) :
  match l with
  | [] => True
  | c :: _ => pl.is_whitespace c = false
  end ->
  pl.trim_start l = l.
Proof.
  destruct l as [|c l]; simpl; [reflexivity|]. now intros ->.
Qed.

Lemma leading_whitespace_list (s : string) :
  leading_whitespace s =
  match list_ascii_of_string s with
  | [] => false
  | c :: _ => pl.is_whitespace c
  end.
Proof. destruct s; reflexivity. Qed.

(** [strip_chars] leaves a string as it is exactly when the string has no
    white space at either end, and stripping twice is stripping once. *)
Theorem strip_chars_fixed_iff (s : string) :
  (pl.strip_chars s = s <-> outer_whitespace s = false) /\
  pl.strip_chars (pl.strip_chars s) = pl.strip_chars s.
Proof.
  assert (forall t, outer_whitespace t = false -> pl.strip_chars t = t) as Fix.
  { intros t Ht. unfold outer_whitespace in Ht.
    apply orb_false_iff in Ht as [Hl Ht].
    rewrite leading_whitespace_list in Hl. unfold trailing_whitespace in Ht.
    unfold pl.strip_chars, pl.trim_end.
    rewrite (trim_start_fixed (list_ascii_of_string t)).
    2:{ destruct (list_ascii_of_string t); [exact I | exact Hl]. }
    rewrite (trim_start_fixed (rev (list_ascii_of_string t))).
    2:{ destruct (rev (list_ascii_of_string t)); [exact I | exact Ht]. }
    rewrite rev_involutive. apply string_of_list_ascii_of_string. }
  split; [split|].
  - intros E. rewrite <- E. apply strip_chars_clean.
  - apply Fix.
  - apply Fix, strip_chars_clean.
Qed.

(** *** The operator dimension: keys and names *)

Lemma arange_NoDup (lo hi : Z) : NoDup (pl.arange lo hi).
Proof.
  unfold pl.arange. generalize (seq_NoDup (Z.to_nat (hi - lo)) 0).
  generalize (seq 0 (Z.to_nat (hi - lo))). intros l N.
  induction N as [|i l Hi N IH]; simpl; constructor; auto.
  intros H. apply in_map_iff in H as (j & E & Hj).
  assert (j = i) by lia. now subst j.
Qed.

(** For every raw batch with the operator column, [operator_id] is a key of
    the operator table: the table has one row more than there are distinct
    raw operator values, and its ids are 1, 2, ... up to that number, each
    once. *)
Theorem dim_operator_ids_are_a_key {U : pl.Unique} (data : DataFrame) :
  has_columns ["Operator"] data = true ->
  exists out,
    transform_data.dim_operator data = inr out /\
    List.length out =
      S (List.length (distinct_first_seen (map Operator (rows data)))) /\
    map DimOperator.operator_id out = pl.arange 1 (pl.height out + 1) /\
    NoDup (map DimOperator.operator_id out).
Proof.
  intros H. eexists. split; [apply (dim_operator_inr data H)|].
  set (us := pl.unique cell_string_dec (fun v => v) (map Operator (rows data))).
  assert (List.length (operator_table (us ++ [Some "Unknown"])) =
          S (List.length (distinct_first_seen (map Operator (rows data))))) as L.
  { pose proof (Permutation_length
                  (unique_column_Permutation (U := U) (map Operator (rows data))))
      as PL.
    fold us in PL. rewrite operator_table_length, length_app, PL. simpl. lia. }
  split; [exact L|].
  assert (map DimOperator.operator_id (operator_table (us ++ [Some "Unknown"])) =
          pl.arange 1 (pl.height (operator_table (us ++ [Some "Unknown"])) + 1)) as E.
  { rewrite operator_table_ids. unfold pl.height.
    now rewrite operator_table_length. }
  split; [exact E|]. rewrite E. apply arange_NoDup.
Qed.

Lemma dim_operator_ids_are_a_key_witness :
  exists out,
    transform_data.dim_operator (U := reversed_unique) acme_and_null = inr out /\
    List.length out =
      S (List.length (distinct_first_seen (map Operator (rows acme_and_null)))) /\
    map DimOperator.operator_id out = pl.arange 1 (pl.height out + 1) /\
    NoDup (map DimOperator.operator_id out).
Proof.
  apply (dim_operator_ids_are_a_key (U := reversed_unique) acme_and_null).
  reflexivity.
Defined.

(** For every raw batch with the operator column, the names of the operator
    table are trimmed; every raw operator value has a row under its cleaned
    name (null under "None"); and every row is such a row or is named
    "Unknown". *)
Theorem dim_operator_names {U : pl.Unique} (data : DataFrame) :
  has_columns ["Operator"] data = true ->
  exists out,
    transform_data.dim_operator data = inr out /\
    (forall d, In d out -> outer_whitespace (DimOperator.operator_name d) = false) /\
    (forall r, In r (rows data) ->
       exists d, In d out /\
                 DimOperator.operator_name d = display_name (Operator r)) /\
    (forall d, In d out ->
       DimOperator.operator_name d = "Unknown" \/
       exists r, In r (rows data) /\
                 DimOperator.operator_name d = display_name (Operator r)).
Proof.
  intros H. eexists. split; [apply (dim_operator_inr data H)|].
  set (us := pl.unique cell_string_dec (fun v => v) (map Operator (rows data))).
  split; [|split].
  - intros d Hd. apply operator_table_In in Hd as (i & c & _ & ->).
    apply display_name_clean.
  - intros r Hr.
    assert (In (Operator r) us) as Hin
      by (apply unique_column_In; now apply in_map).
    apply In_nth_error in Hin as (i & Hi).
    exists {| DimOperator.operator_name := display_name (Operator r);
              DimOperator.operator_id := Z.of_nat i + 1 |}.
    split; [|reflexivity].
    apply operator_table_In. exists i, (Operator r). split; [|reflexivity].
    rewrite nth_error_app1; [exact Hi|]. now apply nth_error_Some_lt in Hi.
  - intros d Hd. apply operator_table_In in Hd as (i & c & Hi & ->).
    apply nth_error_In in Hi. apply in_app_or in Hi as [Hi | [<- | []]].
    + right. unfold us in Hi. apply (proj1 (unique_column_In _ c)) in Hi.
      apply in_map_iff in Hi as (r & <- & Hr). now exists r.
    + left. reflexivity.
Qed.

Lemma dim_operator_names_witness :
  exists out,
    transform_data.dim_operator (U := first_seen_unique) acme_and_null = inr out /\
    (forall d, In d out -> outer_whitespace (DimOperator.operator_name d) = false) /\
    (forall r, In r (rows acme_and_null) ->
       exists d, In d out /\
                 DimOperator.operator_name d = display_name (Operator r)) /\
    (forall d, In d out ->
       DimOperator.operator_name d = "Unknown" \/
       exists r, In r (rows acme_and_null) /\
                 DimOperator.operator_name d = display_name (Operator r)).
Proof.
  apply (dim_operator_names (U := first_seen_unique) acme_and_null).
  reflexivity.
Defined.

(** *** The fact builder: when it returns and how it fails *)

Lemma fact_columns_split (data : DataFrame) :
  has_columns fact_columns data =
  has_columns ["Operator"; "Station name"] data &&
  has_columns ["ObjId"; "Number of plugs"; "CHAdeMO"; "CCS/SAE"; "Tesla(Fast)"] data.
Proof.
  unfold has_columns, fact_columns.
  change ["Operator"; "Station name"; "ObjId"; "Number of plugs"; "CHAdeMO";
          "CCS/SAE"; "Tesla(Fast)"]
    with (["Operator"; "Station name"] ++
          ["ObjId"; "Number of plugs"; "CHAdeMO"; "CCS/SAE"; "Tesla(Fast)"]).
  apply forallb_app.
Qed.

Lemma first_unknown_None (dim : list DimOperator.row) :
  first_unknown dim = None <->
  forall d, In d dim -> DimOperator.operator_name d <> "Unknown".
Proof.
  unfold first_unknown. split.
  - intros E d Hd. apply String.eqb_neq. exact (find_none _ _ E d Hd).
  - intros N. destruct (find is_unknown dim) as [d|] eqn:E; [|reflexivity].
    apply find_some in E as [Hd Hu]. apply String.eqb_eq in Hu.
    now apply N in Hd.
Qed.

(** Whatever the dimension tables, a frame that lacks one of the seven
    columns the fact builder names makes it raise [ColumnNotFoundError] for
    a column that is absent; this comes before the lookup of the "Unknown"
    row, so it is the error also when the operator table has no such row. *)
Theorem fact_ev_charger_missing_column {U : pl.Unique} (data : DataFrame)
    (dop : list DimOperator.row) (dst : list DimStation.row) :
  has_columns fact_columns data = false ->
  exists c, In c fact_columns /\ has_column data c = false /\
            transform_data.fact_ev_charger data dop dst
              = inl (ColumnNotFoundError c).
Proof.
  intros H. rewrite fact_columns_split in H.
  unfold transform_data.fact_ev_charger.
  destruct (select ["Operator"; "Station name"] data) as [e | left] eqn:E1.
  - apply select_inl in E1 as (c & -> & Hc & Hm). exists c.
    split; [simpl in *; tauto|]. split; [exact Hm | reflexivity].
  - apply select_inr in E1 as [_ H1]. rewrite H1 in H. cbn [andb] in H.
    cbn [bind].
    destruct (select _ data) as [e | ign] eqn:E2.
    + apply select_inl in E2 as (c & -> & Hc & Hm). exists c.
      split; [simpl in *; tauto|]. split; [exact Hm | reflexivity].
    + apply select_inr in E2 as [_ H2]. congruence.
Qed.

Lemma fact_ev_charger_missing_column_witness :
  exists c, In c fact_columns /\ has_column no_ObjId c = false /\
            transform_data.fact_ev_charger (U := first_seen_unique) no_ObjId [] []
              = inl (ColumnNotFoundError c).
Proof.
  apply (fact_ev_charger_missing_column (U := first_seen_unique) no_ObjId [] []).
  reflexivity.
Defined.

(** Over a frame with the seven columns the fact builder names (the other
    station columns are not needed), the builder returns a table when the
    operator table has a row named "Unknown", and raises [IndexError] when
    it has none, even if no raw row needs the fallback id. *)
Theorem fact_ev_charger_needs_unknown_row {U : pl.Unique} (data : DataFrame)
    (dop : list DimOperator.row) (dst : list DimStation.row) :
  has_columns fact_columns data = true ->
  ((exists d, In d dop /\ DimOperator.operator_name d = "Unknown") ->
   exists fact, transform_data.fact_ev_charger data dop dst = inr fact) /\
  ((forall d, In d dop -> DimOperator.operator_name d <> "Unknown") ->
   transform_data.fact_ev_charger data dop dst = inl IndexError).
Proof.
  intros H. rewrite fact_columns_split in H.
  apply andb_true_iff in H as [H1 H2].
  unfold transform_data.fact_ev_charger.
  rewrite (select_ok _ _ H1). cbn [bind]. rewrite (select_ok _ _ H2). cbn [bind].
  rewrite unknown_operator_id_first. split.
  - intros (d & Hd & Hn).
    destruct (first_unknown dop) as [s|] eqn:E.
    + cbn [bind]. eexists. reflexivity.
    + exfalso. exact (proj1 (first_unknown_None dop) E d Hd Hn).
  - intros N. now rewrite (proj2 (first_unknown_None dop) N).
Qed.

Lemma fact_ev_charger_needs_unknown_row_witness :
  ((exists d, In d acme_twice_operators /\ DimOperator.operator_name d = "Unknown") ->
   exists fact,
     transform_data.fact_ev_charger (U := first_seen_unique) acme_twice
       acme_twice_operators [] = inr fact) /\
  ((forall d, In d acme_twice_operators ->
              DimOperator.operator_name d <> "Unknown") ->
   transform_data.fact_ev_charger (U := first_seen_unique) acme_twice
     acme_twice_operators [] = inl IndexError).
Proof.
  apply (fact_ev_charger_needs_unknown_row (U := first_seen_unique) acme_twice
           acme_twice_operators []).
  reflexivity.
Defined.

(** *** The fact table: which chargers, which keys *)

(** Whatever the dimension tables, a table the fact builder returns holds
    exactly the charger ids of the raw batch: every raw [ObjId] (a null one
    too) is the [charger_id] of a fact row, every [charger_id] is a raw
    [ObjId], and the table has at most as many rows as the batch. *)
Theorem fact_ev_charger_keeps_every_charger {U : pl.Unique} (data : DataFrame)
    (dop : list DimOperator.row) (dst : list DimStation.row) (fact : list Fact.row) :
  transform_data.fact_ev_charger data dop dst = inr fact ->
  (forall c, In c (map Fact.charger_id fact) <-> In c (map ObjId (rows data))) /\
  (List.length fact <= List.length (rows data))%nat.
Proof.
  intros E. apply fact_ev_charger_inv in E as (u & _ & ->).
  split; [intros c; apply fact_charger_ids|].
  rewrite <- (length_map Fact.charger_id), <- (length_map ObjId (rows data)).
  apply NoDup_incl_length; [apply fact_charger_ids_NoDup|].
  intros c Hc. now apply fact_charger_ids in Hc.
Qed.

Lemma fact_ev_charger_keeps_every_charger_witness :
  (forall c, In c (map Fact.charger_id acme_twice_fact) <->
             In c (map ObjId (rows acme_twice))) /\
  (List.length acme_twice_fact <= List.length (rows acme_twice))%nat.
Proof.
  apply (fact_ev_charger_keeps_every_charger (U := first_seen_unique) acme_twice
           acme_twice_operators []).
  reflexivity.
Defined.

Lemma fact_rows_of_station (dop : list DimOperator.row) (dst : list DimStation.row)
    (u : Z) (r : RawRow) (f : Fact.row) :
  In f (fact_rows_of dop dst u r) ->
  (exists d n, In d dst /\ Station_name r = Some n /\
               DimStation.station_name d = Some n /\
               Fact.station_id f = Some (DimStation.station_id d)) \/
  ((forall d, In d dst ->
      pl.key_matches (Station_name r) (DimStation.station_name d) = false) /\
   Fact.station_id f = None).
Proof.
  intros Hf.
  apply joined_fact_rows_In in Hf as (r' & op & st & [<- | []] & Hop & Hst & ->).
  destruct st as [d|]; simpl in Hst.
  - left. destruct Hst as [Hd Hk].
    apply key_matches_eq in Hk as (n & Hr & Hn). exists d, n. auto.
  - right. split; [exact Hst | reflexivity].
Qed.

Lemma pipeline_tables_exist {U : pl.Unique} (data : DataFrame) :
  has_columns required_columns data = true ->
  exists dst s,
    pipeline_tables data
      (operator_table
         (pl.unique cell_string_dec (fun v => v) (map Operator (rows data))
          ++ [Some "Unknown"]))
      dst
      (pl.sort Fact.charger_id
         (pl.unique cell_Z_dec Fact.charger_id
            (joined_fact_rows
               (operator_table
                  (pl.unique cell_string_dec (fun v => v) (map Operator (rows data))
                   ++ [Some "Unknown"]))
               dst (DimOperator.operator_id s) (rows data))))
      (DimOperator.operator_id s) /\
    DimOperator.operator_name s = "Unknown" /\
    In s (operator_table
            (pl.unique cell_string_dec (fun v => v) (map Operator (rows data))
             ++ [Some "Unknown"])).
Proof.
  intros H. destruct (pipeline_runs data H) as (dst & s & P). cbv zeta in P.
  destruct P as (Edop & Edst & Es & Hs & Hn & Efact).
  exists dst, s. split; [|split; assumption].
  split; [exact Edop|]. split; [exact Edst|]. split; [exact Efact|].
  split; [now exists s|].
  intros f Hf. now apply fact_row_provenance in Hf.
Qed.

(** For every raw batch with the required columns, the keys of the fact
    table point into the dimension tables built from the batch: every
    [operator_id] is the id of a row of the operator table, and the
    [station_id] of a fact row is the id of a station row named as the
    station of the raw row it comes from, and is null exactly when that raw
    station name is null (it is not filled). *)
Theorem fact_foreign_keys {U : pl.Unique} (data : DataFrame) :
  has_columns required_columns data = true ->
  exists dop dst fact u,
    pipeline_tables data dop dst fact u /\
    forall f, In f fact ->
      (exists d, In d dop /\ Fact.operator_id f = Some (DimOperator.operator_id d)) /\
      exists r, In r (rows data) /\ derived_from r f /\
        match Station_name r with
        | None => Fact.station_id f = None
        | Some n =>
            exists d, In d dst /\ DimStation.station_name d = Some n /\
                      Fact.station_id f = Some (DimStation.station_id d)
        end.
Proof.
  intros H. destruct (pipeline_tables_exist data H) as (dst & s & P & Hn & Hs).
  eexists. exists dst. do 2 eexists. split; [exact P|].
  destruct P as (_ & Edst & _ & _ & Prov).
  intros f Hf. destruct (Prov f Hf) as (r & Hr & Hfr). split.
  - apply fact_rows_of_In in Hfr as [_ [(d & Hd & _ & Hid) | (_ & Hid)]].
    + now exists d.
    + now exists s.
  - exists r. split; [exact Hr|].
    split; [now apply fact_rows_of_In in Hfr|].
    apply fact_rows_of_station in Hfr as [(d & n & Hd & Hrn & Hdn & Hid) | (Hno & Hid)].
    + rewrite Hrn. now exists d.
    + destruct (Station_name r) as [n|] eqn:En; [exfalso | exact Hid].
      assert (has_columns station_columns data = true) as Hst.
      { revert H. apply has_columns_incl. intros c Hc. simpl in *. tauto. }
      destruct (dim_station_inr data Hst) as (dst' & Edst' & Hnth).
      assert (dst' = dst) as -> by congruence.
      apply In_nth_error in Hr as (i & Hi).
      specialize (Hnth i). rewrite Hi in Hnth. cbn [option_map] in Hnth.
      apply nth_error_In in Hnth. specialize (Hno _ Hnth).
      cbn [DimStation.station_name] in Hno. rewrite En in Hno.
      simpl in Hno. now rewrite String.eqb_refl in Hno.
Qed.

Lemma fact_foreign_keys_witness :
  exists dop dst fact u,
    pipeline_tables (U := first_seen_unique) acme_and_null dop dst fact u /\
    forall f, In f fact ->
      (exists d, In d dop /\ Fact.operator_id f = Some (DimOperator.operator_id d)) /\
      exists r, In r (rows acme_and_null) /\ derived_from r f /\
        match Station_name r with
        | None => Fact.station_id f = None
        | Some n =>
            exists d, In d dst /\ DimStation.station_name d = Some n /\
                      Fact.station_id f = Some (DimStation.station_id d)
        end.
Proof.
  apply (fact_foreign_keys (U := first_seen_unique) acme_and_null).
  reflexivity.
Defined.

(** For every raw batch with the required columns, a raw row whose operator
    name has no white space at either end is matched: every fact row joined
    from it carries the id of an operator row named exactly as the raw
    operator, never the fallback of an unmatched row. *)
Theorem unpadded_operator_is_matched {U : pl.Unique} (data : DataFrame) :
  has_columns required_columns data = true ->
  exists dop dst fact u,
    pipeline_tables data dop dst fact u /\
    forall r name f,
      In r (rows data) -> Operator r = Some name ->
      outer_whitespace name = false ->
      In f (fact_rows_of dop dst u r) ->
      exists d, In d dop /\ DimOperator.operator_name d = name /\
                Fact.operator_id f = Some (DimOperator.operator_id d).
Proof.
  intros H. destruct (pipeline_tables_exist data H) as (dst & s & P & Hn & Hs).
  eexists. exists dst. do 2 eexists. split; [exact P|].
  intros r name f Hr Hop Hw Hf.
  apply fact_rows_of_In in Hf as [_ [(d & Hd & Hdn & Hid) | (Hno & _)]].
  - exists d. rewrite Hop in Hdn. inversion Hdn. auto.
  - exfalso.
    set (us := pl.unique cell_string_dec (fun v => v) (map Operator (rows data))) in *.
    assert (In (Operator r) us) as Hin
      by (apply unique_column_In; now apply in_map).
    apply In_nth_error in Hin as (i & Hi).
    apply (Hno {| DimOperator.operator_name := display_name (Operator r);
                  DimOperator.operator_id := Z.of_nat i + 1 |}).
    + apply operator_table_In. exists i, (Operator r). split; [|reflexivity].
      rewrite nth_error_app1; [exact Hi|]. now apply nth_error_Some_lt in Hi.
    + rewrite Hop. cbn [DimOperator.operator_name]. unfold display_name.
      cbn [pl.fill_null]. f_equal. symmetry.
      now apply (proj1 (strip_chars_fixed_iff name)).
Qed.

Lemma unpadded_operator_is_matched_witness :
  exists dop dst fact u,
    pipeline_tables (U := first_seen_unique) acme_twice dop dst fact u /\
    forall r name f,
      In r (rows acme_twice) -> Operator r = Some name ->
      outer_whitespace name = false ->
      In f (fact_rows_of dop dst u r) ->
      exists d, In d dop /\ DimOperator.operator_name d = name /\
                Fact.operator_id f = Some (DimOperator.operator_id d).
Proof.
  apply (unpadded_operator_is_matched (U := first_seen_unique) acme_twice).
  reflexivity.
Defined.

(** For every raw batch with the required columns, a raw row with a null
    operator is never matched, although the operator table has a row named
    "None" made for it: every fact row joined from it carries the fallback
    id, which is not the id of that "None" row. *)
Theorem null_operator_gets_fallback {U : pl.Unique} (data : DataFrame) :
  has_columns required_columns data = true ->
  exists dop dst fact u,
    pipeline_tables data dop dst fact u /\
    forall r,
      In r (rows data) -> Operator r = None ->
      (forall f, In f (fact_rows_of dop dst u r) -> Fact.operator_id f = Some u) /\
      exists d, In d dop /\ DimOperator.operator_name d = "None" /\
                DimOperator.operator_id d <> u.
Proof.
  intros H. destruct (pipeline_tables_exist data H) as (dst & s & P & Hn & Hs).
  eexists. exists dst. do 2 eexists. split; [exact P|].
  intros r Hr Hop. split.
  - intros f Hf.
    apply fact_rows_of_In in Hf as [_ [(d & _ & Hdn & _) | (_ & Hid)]].
    + rewrite Hop in Hdn. discriminate.
    + exact Hid.
  - set (us := pl.unique cell_string_dec (fun v => v) (map Operator (rows data))) in *.
    assert (In None us) as Hin.
    { apply unique_column_In. rewrite <- Hop. now apply in_map. }
    apply In_nth_error in Hin as (i & Hi).
    exists {| DimOperator.operator_name := display_name None;
              DimOperator.operator_id := Z.of_nat i + 1 |}.
    split; [|split; [reflexivity|]].
    + apply operator_table_In. exists i, None. split; [|reflexivity].
      rewrite nth_error_app1; [exact Hi|]. now apply nth_error_Some_lt in Hi.
    + cbn [DimOperator.operator_id]. intros E.
      apply operator_table_In in Hs as (j & c & Hj & ->).
      cbn [DimOperator.operator_id DimOperator.operator_name] in *.
      assert (j = i) as -> by lia.
      rewrite nth_error_app1 in Hj by now apply nth_error_Some_lt in Hi.
      rewrite Hi in Hj. inversion Hj; subst c. discriminate.
Qed.

Lemma null_operator_gets_fallback_witness :
  exists dop dst fact u,
    pipeline_tables (U := first_seen_unique) acme_and_null dop dst fact u /\
    forall r,
      In r (rows acme_and_null) -> Operator r = None ->
      (forall f, In f (fact_rows_of dop dst u r) -> Fact.operator_id f = Some u) /\
      exists d, In d dop /\ DimOperator.operator_name d = "None" /\
                DimOperator.operator_id d <> u.
Proof.
  apply (null_operator_gets_fallback (U := first_seen_unique) acme_and_null).
  reflexivity.
Defined.

(** *** The empty batch *)

Lemma unique_nil {U : pl.Unique} (A K : Type) dec (key : A -> K) :
  pl.unique dec key (@nil A) = [].
Proof.
  destruct (pl.unique dec key []) as [|x l] eqn:E; [reflexivity|].
  exfalso. apply (pl.unique_In A K dec key [] x). rewrite E. now left.
Qed.

(** Over a batch with the required columns and no rows, whatever [unique]
    does: the station table is empty, the operator table is the sentinel
    alone with id 1, and the fact table over them is empty. *)
Theorem empty_batch_tables {U : pl.Unique} (data : DataFrame) :
  has_columns required_columns data = true ->
  rows data = [] ->
  transform_data.dim_station data = inr [] /\
  transform_data.dim_operator data =
    inr [ {| DimOperator.operator_name := "Unknown";
             DimOperator.operator_id := 1 |} ] /\
  transform_data.fact_ev_charger data
    [ {| DimOperator.operator_name := "Unknown"; DimOperator.operator_id := 1 |} ] []
    = inr [].
Proof.
  intros H E.
  assert (has_columns ["Operator"] data = true) as Hop.
  { revert H. apply has_columns_incl. intros c Hc. simpl in *. tauto. }
  assert (has_columns station_columns data = true) as Hst.
  { revert H. apply has_columns_incl. intros c Hc. simpl in *. tauto. }
  split; [|split].
  - unfold transform_data.dim_station. unfold station_columns in Hst.
    rewrite (select_ok _ _ Hst), E. reflexivity.
  - rewrite (dim_operator_inr data Hop), E. cbn [map].
    rewrite unique_nil. reflexivity.
  - rewrite (fact_ev_charger_inr data
               [ {| DimOperator.operator_name := "Unknown";
                    DimOperator.operator_id := 1 |} ] [] 1 H eq_refl), E.
    change (joined_fact_rows _ [] 1 []) with (@nil Fact.row).
    rewrite unique_nil. reflexivity.
Qed.

Lemma empty_batch_tables_witness :
  transform_data.dim_station (frame []) = inr [] /\
  transform_data.dim_operator (U := reversed_unique) (frame []) =
    inr [ {| DimOperator.operator_name := "Unknown";
             DimOperator.operator_id := 1 |} ] /\
  transform_data.fact_ev_charger (U := reversed_unique) (frame [])
    [ {| DimOperator.operator_name := "Unknown"; DimOperator.operator_id := 1 |} ] []
    = inr [].
Proof.
  apply (empty_batch_tables (U := reversed_unique) (frame [])); reflexivity.
Defined.

(** *** Whole runs: what is written, how a run ends *)

Lemma read_file_write_same (p : string) (t : Table) (fs : Files) :
  read_file p (write_csv p t fs) = Some t.
Proof. unfold write_csv. simpl. now rewrite String.eqb_refl. Qed.

Lemma required_columns_split (data : DataFrame) :
  has_columns required_columns data =
  has_columns station_columns data && has_columns ["Operator"] data &&
  has_columns fact_columns data.
Proof.
  unfold has_columns, required_columns, station_columns, fact_columns.
  cbn [forallb].
  destruct (has_column data "ObjId"), (has_column data "Operator"),
    (has_column data "Station name"), (has_column data "Station address"),
    (has_column data "Latitude"), (has_column data "Longitude"),
    (has_column data "Number of station"), (has_column data "Number of plugs"),
    (has_column data "CHAdeMO"), (has_column data "CCS/SAE"),
    (has_column data "Tesla(Fast)"); reflexivity.
Qed.

Lemma dim_station_returns (data : DataFrame) (dst : list DimStation.row) :
  transform_data.dim_station data = inr dst ->
  has_columns station_columns data = true.
Proof.
  unfold transform_data.dim_station.
  destruct (select _ data) as [e | rs] eqn:E; [discriminate|].
  intros _. now apply select_inr in E.
Qed.

Lemma dim_operator_returns {U : pl.Unique} (data : DataFrame)
    (dop : list DimOperator.row) :
  transform_data.dim_operator data = inr dop ->
  has_columns ["Operator"] data = true.
Proof.
  unfold transform_data.dim_operator.
  destruct (select _ data) as [e | rs] eqn:E; [discriminate|].
  intros _. now apply select_inr in E.
Qed.

Lemma fact_ev_charger_returns {U : pl.Unique} (data : DataFrame)
    (dop : list DimOperator.row) (dst : list DimStation.row) (fact : list Fact.row) :
  transform_data.fact_ev_charger data dop dst = inr fact ->
  has_columns fact_columns data = true.
Proof.
  intros E. destruct (has_columns fact_columns data) eqn:H; [reflexivity|].
  destruct (fact_ev_charger_missing_column data dop dst H) as (c & _ & _ & E').
  congruence.
Qed.

(** A run of [build_tables] that completes was given a frame with all the
    required columns; afterwards the three output files hold the station
    table, the operator table and the fact table built over those two (what
    was there before is overwritten), and every other file of the output
    directory is as it was. *)
Theorem build_tables_completed {U : pl.Unique} (data : DataFrame)
    (fs fs' : Files) :
  build_table_files.build_tables data fs = (fs', inr tt) ->
  has_columns required_columns data = true /\
  exists dst dop fact,
    transform_data.dim_station data = inr dst /\
    transform_data.dim_operator data = inr dop /\
    transform_data.fact_ev_charger data dop dst = inr fact /\
    read_file "data_file_output/dim_station.csv" fs' = Some (StationTable dst) /\
    read_file "data_file_output/dim_operator.csv" fs' = Some (OperatorTable dop) /\
    read_file "data_file_output/fact_ev_charger.csv" fs' = Some (FactTable fact) /\
    forall path, ~ In path output_paths -> read_file path fs' = read_file path fs.
Proof.
  unfold build_table_files.build_tables.
  destruct (transform_data.dim_station data) as [e1 | dst] eqn:Est;
    [discriminate|].
  destruct (transform_data.dim_operator data) as [e2 | dop] eqn:Eop;
    [discriminate|].
  cbn [build_table_files.build_dim_station
       build_table_files.build_dim_operator ret].
  unfold build_table_files.build_fact_ev_charger.
  destruct (transform_data.fact_ev_charger data dop dst) as [e3 | fact] eqn:Ef;
    [discriminate|].
  intros E. inversion E; subst fs'. split.
  - rewrite required_columns_split.
    rewrite (dim_station_returns _ _ Est), (dim_operator_returns _ _ Eop).
    now rewrite (fact_ev_charger_returns _ _ _ _ Ef).
  - exists dst, dop, fact.
    split; [reflexivity|]. split; [reflexivity|]. split; [exact Ef|].
    split; [|split; [|split]].
    + rewrite !read_file_write_other by discriminate.
      apply read_file_write_same.
    + rewrite read_file_write_other by discriminate.
      apply read_file_write_same.
    + apply read_file_write_same.
    + intros path N. unfold output_paths in N. simpl in N.
      rewrite !read_file_write_other; [reflexivity| | |];
        intros E'; apply N; auto.
Qed.

Lemma build_tables_completed_witness :
  has_columns required_columns acme_and_null = true /\
  exists dst dop fact,
    transform_data.dim_station acme_and_null = inr dst /\
    transform_data.dim_operator (U := first_seen_unique) acme_and_null = inr dop /\
    transform_data.fact_ev_charger (U := first_seen_unique) acme_and_null dop dst
      = inr fact /\
    read_file "data_file_output/dim_station.csv"
      (fst (build_table_files.build_tables (U := first_seen_unique)
              acme_and_null [])) = Some (StationTable dst) /\
    read_file "data_file_output/dim_operator.csv"
      (fst (build_table_files.build_tables (U := first_seen_unique)
              acme_and_null [])) = Some (OperatorTable dop) /\
    read_file "data_file_output/fact_ev_charger.csv"
      (fst (build_table_files.build_tables (U := first_seen_unique)
              acme_and_null [])) = Some (FactTable fact) /\
    forall path, ~ In path output_paths ->
      read_file path
        (fst (build_table_files.build_tables (U := first_seen_unique)
                acme_and_null [])) = read_file path [].
Proof.
  apply (build_tables_completed (U := first_seen_unique) acme_and_null []).
  reflexivity.
Defined.


(** What the two dimension builders need of the frame.  [dim_station]
    returns, one row per raw row, exactly when the five station columns are
    there, and otherwise raises [ColumnNotFoundError] for an absent one of
    them; [dim_operator] returns exactly when "Operator" is there, and
    otherwise raises [ColumnNotFoundError] for it.  Neither looks at any
    other column. *)
Theorem dimension_builders_columns {U : pl.Unique} (data : DataFrame) :
  (if has_columns station_columns data
   then exists dst, transform_data.dim_station data = inr dst /\
                    List.length dst = List.length (rows data)
   else exists c, In c station_columns /\ has_column data c = false /\
                  transform_data.dim_station data = inl (ColumnNotFoundError c)) /\
  (if has_column data "Operator"
   then exists dop, transform_data.dim_operator data = inr dop
   else transform_data.dim_operator data = inl (ColumnNotFoundError "Operator")).
Proof.
  split.
  - destruct (has_columns station_columns data) eqn:H.
    + unfold transform_data.dim_station. unfold station_columns in H.
      rewrite (select_ok _ _ H). eexists. split; [reflexivity|].
      unfold pl.with_column.
      rewrite length_map, length_combine, arange_height, length_map, length_seq.
      lia.
    + unfold transform_data.dim_station.
      destruct (select _ data) as [e | rs] eqn:E.
      * apply select_inl in E as (c & -> & Hc & Hm). exists c. auto.
      * apply select_inr in E as [_ E]. unfold station_columns in H. congruence.
  - unfold transform_data.dim_operator. cbn [select].
    destruct (has_column data "Operator"); [|reflexivity].
    eexists. reflexivity.
Qed.
